(** * Nylas Python SDK: request building, OAuth helpers and list responses

    A shallow embedding of
      - nylas/handler/http_client.py   (HttpClient)
      - nylas/models/list_response.py  (ListResponse)
      - nylas/resources/auth.py        (Auth and its query helpers)
      - nylas/resources/calendars.py   (Calendars.list)
    together with the parts of the Python standard library they call
    (dict operations, str.join, urllib.parse.urlencode, base64.b64encode,
    hashlib.sha256).

    Conventions.
      - A Python [str] is a Rocq [string] holding the UTF-8 bytes of the text;
        a Python [bytes] is a [list Z] of values in 0..255.
      - A Python [dict] with str keys is an insertion-ordered association
        list; every dict built by the operations below has unique keys.
      - Mutable objects (dicts that callers hand in, HttpClient instances)
        live in a store and are passed by location.
      - A call either returns a value or raises; the store survives a raise. *)

From Stdlib Require Import ZArith String Ascii List DecimalString Lia Bool.
From stdpp Require Import base list strings.
Import ListNotations.

Open Scope string_scope.
Open Scope list_scope.
Open Scope Z_scope.

(** ** Python values *)

#[warnings="-register-all"]
Inductive pyval : Type :=
| VNone
| VBool (b : bool)
| VInt (z : Z)
| VStr (s : string)
| VList (l : list pyval)
| VDict (d : list (string * pyval)).

(** A dict with str keys, in insertion order. *)
Definition dict : Type := list (string * pyval).

(** Exceptions raised by the modelled code. *)
Inductive exn : Type :=
| KeyError (key : string)
| TypeError (msg : string)
| Dangling                       (* a location that is not in the store *)
| LibraryError (msg : string).   (* raised by code outside this repository *)

Inductive result (A : Type) : Type :=
| Ok (a : A)
| Raise (e : exn).
Arguments Ok {A} a.
Arguments Raise {A} e.

(** [bool(v)]: Python truthiness. *)
Definition truthy (v : pyval) : bool :=
  match v with
  | VNone => false
  | VBool b => b
  | VInt z => negb (z =? 0)
  | VStr s => negb (String.eqb s "")
  | VList l => match l with [] => false | _ => true end
  | VDict d => match d with [] => false | _ => true end
  end.

(** ** Dict operations *)

Module Dict.

(** [d.get(k)], as an option. *)
Fixpoint get (k : string) (d : dict) : option pyval :=
  match d with
  | [] => None
  | (k', v) :: d' => if String.eqb k k' then Some v else get k d'
  end.

(** [d[k] = v]: overwrite in place when present, append otherwise. *)
Fixpoint set (k : string) (v : pyval) (d : dict) : dict :=
  match d with
  | [] => [(k, v)]
  | (k', v') :: d' =>
      if String.eqb k k' then (k', v) :: d' else (k', v') :: set k v d'
  end.

(** [k in d]. *)
Definition mem (k : string) (d : dict) : bool :=
  match get k d with Some _ => true | None => false end.

(** [d[k]], raising KeyError. *)
Definition getitem (k : string) (d : dict) : result pyval :=
  match get k d with
  | Some v => Ok v
  | None => Raise (KeyError k)
  end.

(** [d.get(k, default)]. *)
Definition get_default (k : string) (default : pyval) (d : dict) : pyval :=
  match get k d with
  | Some v => v
  | None => default
  end.

(** [{**a, **b}]: the items of [b] are stored into a copy of [a] in order. *)
Definition merge (a b : dict) : dict :=
  fold_left (fun acc kv => set (fst kv) (snd kv) acc) b a.

Definition keys (d : dict) : list string := map fst d.

(** Every Python dict has pairwise distinct keys. *)
Definition wf (d : dict) : Prop := NoDup (keys d).

End Dict.

(** ** Text *)

Definition byte_of (c : ascii) : Z := Z.of_N (N_of_ascii c).
Definition char_of (b : Z) : ascii := ascii_of_N (Z.to_N b).

(** [s.encode()]: the UTF-8 bytes of the text. *)
Definition encode (s : string) : list Z := map byte_of (list_ascii_of_string s).

(** [b.decode()] on bytes that are valid UTF-8. *)
Definition decode (bs : list Z) : string := string_of_list_ascii (map char_of bs).

(** [sep.join(parts)] on a list of str. *)
Fixpoint join (sep : string) (parts : list string) : string :=
  match parts with
  | [] => ""
  | [p] => p
  | p :: rest => p +:+ sep +:+ join sep rest
  end.

(** UTF-8 continuation bytes are 10xxxxxx. *)
Definition is_continuation (c : ascii) : bool :=
  Z.land (byte_of c) 192 =? 128.

(** The characters of a str, one string per code point. *)
Fixpoint chars_aux (cur : string) (s : string) : list string :=
  match s with
  | EmptyString => [cur]
  | String c s' =>
      if is_continuation c then chars_aux (cur +:+ String c EmptyString) s'
      else cur :: chars_aux (String c EmptyString) s'
  end.

Definition chars (s : string) : list string :=
  match s with
  | EmptyString => []
  | String c s' => chars_aux (String c EmptyString) s'
  end.

(** [str(z)] for an int. *)
Definition str_of_int (z : Z) : string := NilZero.string_of_int (Z.to_int z).

(** What [for x in v] enumerates. *)
Definition iterate (v : pyval) : result (list pyval) :=
  match v with
  | VList l => Ok l
  | VStr s => Ok (map VStr (chars s))
  | VDict d => Ok (map VStr (Dict.keys d))
  | VNone => Raise (TypeError "'NoneType' object is not iterable")
  | VBool _ => Raise (TypeError "'bool' object is not iterable")
  | VInt _ => Raise (TypeError "'int' object is not iterable")
  end.

(** The items of an iterable as str, or TypeError at the first non-str. *)
Fixpoint expect_strs (l : list pyval) : result (list string) :=
  match l with
  | [] => Ok []
  | VStr s :: l' =>
      match expect_strs l' with
      | Ok ss => Ok (s :: ss)
      | Raise e => Raise e
      end
  | _ :: _ => Raise (TypeError "sequence item: expected str instance")
  end.

(** [sep.join(v)] on an arbitrary value. *)
Definition str_join (sep : string) (v : pyval) : result string :=
  match iterate v with
  | Raise _ => Raise (TypeError "can only join an iterable")
  | Ok items =>
      match expect_strs items with
      | Ok ss => Ok (join sep ss)
      | Raise e => Raise e
      end
  end.

(** ** urllib.parse: percent-encoding *)

Module Urllib.

Definition in_range (lo hi b : Z) : bool := (lo <=? b) && (b <=? hi).

(** [_ALWAYS_SAFE]: ASCII letters, digits and [_.-~]. *)
Definition always_safe (c : ascii) : bool :=
  let b := byte_of c in
  in_range 65 90 b || in_range 97 122 b || in_range 48 57 b
  || (b =? 95) || (b =? 46) || (b =? 45) || (b =? 126).

Definition hex_digit (n : Z) : ascii :=
  match String.get (Z.to_nat n) "0123456789ABCDEF" with
  | Some c => c
  | None => "0"%char
  end.

(** ['%{:02X}'.format(b)]. *)
Definition percent (c : ascii) : string :=
  let b := byte_of c in
  String "%" (String (hex_digit (b / 16)) (String (hex_digit (b mod 16)) EmptyString)).

(** [quote_plus(s, safe='')]: safe bytes stay, a space becomes [+],
    every other byte is percent-encoded. *)
Fixpoint quote_plus (s : string) : string :=
  match s with
  | EmptyString => EmptyString
  | String c s' =>
      (if always_safe c then String c EmptyString
       else if (byte_of c =? 32) then "+"
       else percent c) +:+ quote_plus s'
  end.

End Urllib.

(** ** base64.b64encode (RFC 4648, standard alphabet, with padding) *)

Module Base64.

Definition alphabet : string :=
  "ABCDEFGHIJKLMNOPQRSTUVWXYZabcdefghijklmnopqrstuvwxyz0123456789+/".

Definition sextet (n : Z) : Z :=
  match String.get (Z.to_nat n) alphabet with
  | Some c => byte_of c
  | None => 0
  end.

Definition pad : Z := 61.  (* '=' *)

Fixpoint b64encode (bs : list Z) : list Z :=
  match bs with
  | [] => []
  | [a] =>
      [sextet (Z.shiftr a 2); sextet (Z.shiftl (Z.land a 3) 4); pad; pad]
  | [a; b] =>
      [sextet (Z.shiftr a 2);
       sextet (Z.lor (Z.shiftl (Z.land a 3) 4) (Z.shiftr b 4));
       sextet (Z.shiftl (Z.land b 15) 2);
       pad]
  | a :: b :: c :: rest =>
      sextet (Z.shiftr a 2)
      :: sextet (Z.lor (Z.shiftl (Z.land a 3) 4) (Z.shiftr b 4))
      :: sextet (Z.lor (Z.shiftl (Z.land b 15) 2) (Z.shiftr c 6))
      :: sextet (Z.land c 63)
      :: b64encode rest
  end.

End Base64.

(** ** hashlib.sha256 (FIPS 180-4), on 32-bit words held in [Z] *)

Module Sha256.

Definition w32 (x : Z) : Z := x mod 2 ^ 32.
Definition add32 (x y : Z) : Z := w32 (x + y).
Definition not32 (x : Z) : Z := Z.lxor x 4294967295.
Definition rotr (n x : Z) : Z := Z.lor (Z.shiftr x n) (w32 (Z.shiftl x (32 - n))).
Definition shr (n x : Z) : Z := Z.shiftr x n.

Definition Ch (x y z : Z) : Z := Z.lxor (Z.land x y) (Z.land (not32 x) z).
Definition Maj (x y z : Z) : Z :=
  Z.lxor (Z.lxor (Z.land x y) (Z.land x z)) (Z.land y z).
Definition Sigma0 (x : Z) : Z := Z.lxor (Z.lxor (rotr 2 x) (rotr 13 x)) (rotr 22 x).
Definition Sigma1 (x : Z) : Z := Z.lxor (Z.lxor (rotr 6 x) (rotr 11 x)) (rotr 25 x).
Definition sigma0 (x : Z) : Z := Z.lxor (Z.lxor (rotr 7 x) (rotr 18 x)) (shr 3 x).
Definition sigma1 (x : Z) : Z := Z.lxor (Z.lxor (rotr 17 x) (rotr 19 x)) (shr 10 x).

(** The first 64 primes. *)
Definition is_prime (n : Z) : bool :=
  forallb (fun d => negb (n mod d =? 0)) (map Z.of_nat (seq 2 (Z.to_nat n - 2))).

Definition primes : list Z :=
  Eval vm_compute in filter is_prime (map Z.of_nat (seq 2 310)).

(** The integer cube root, bit by bit from the top. *)
Fixpoint cube_root_from (bit : nat) (n r : Z) : Z :=
  match bit with
  | O => r
  | S bit' =>
      let r' := r + 2 ^ Z.of_nat bit' in
      cube_root_from bit' n (if r' * r' * r' <=? n then r' else r)
  end.

(** The round constants: the first 32 bits of the fractional parts of the
    cube roots of the first 64 primes. *)
Definition K : list Z :=
  Eval vm_compute in map (fun p => w32 (cube_root_from 40 (p * 2 ^ 96) 0)) primes.

(** The initial hash value: the first 32 bits of the fractional parts of
    the square roots of the first 8 primes. *)
Definition H0 : list Z :=
  Eval vm_compute in map (fun p => w32 (Z.sqrt (p * 2 ^ 64))) (firstn 8 primes).

(** [n] as [len] big-endian bytes. *)
Fixpoint be_bytes (len : nat) (n : Z) : list Z :=
  match len with
  | O => []
  | S len' => Z.land (Z.shiftr n (8 * Z.of_nat len')) 255 :: be_bytes len' n
  end.

(** Message, then 0x80, then zeros up to 56 mod 64, then the bit length. *)
Definition padding (msg : list Z) : list Z :=
  let l := Z.of_nat (length msg) in
  let zeros := Z.to_nat ((55 - l) mod 64) in
  msg ++ [128] ++ repeat 0 zeros ++ be_bytes 8 (8 * l).

Fixpoint be_words (n : nat) (bs : list Z) : list Z :=
  match n, bs with
  | S n', a :: b :: c :: d :: rest =>
      (Z.shiftl a 24 + Z.shiftl b 16 + Z.shiftl c 8 + d) :: be_words n' rest
  | _, _ => []
  end.

Definition word (w : list Z) (t : nat) : Z := nth t w 0.

(** Message schedule: [w] holds W_0..W_{t-1}; extend it by [n] words. *)
Fixpoint schedule (n : nat) (w : list Z) : list Z :=
  match n with
  | O => w
  | S n' =>
      let t := length w in
      let wt := add32 (add32 (sigma1 (word w (t - 2))) (word w (t - 7)))
                      (add32 (sigma0 (word w (t - 15))) (word w (t - 16))) in
      schedule n' (w ++ [wt])
  end.

Definition round (st : list Z) (kw : Z * Z) : list Z :=
  match st with
  | [a; b; c; d; e; f; g; h] =>
      let t1 := add32 (add32 (add32 h (Sigma1 e)) (add32 (Ch e f g) (fst kw))) (snd kw) in
      let t2 := add32 (Sigma0 a) (Maj a b c) in
      [add32 t1 t2; a; b; c; add32 d t1; e; f; g]
  | _ => st
  end.

Definition compress (h : list Z) (block : list Z) : list Z :=
  let w := schedule 48 (be_words 16 block) in
  let st := fold_left round (combine K w) h in
  map (fun p => add32 (fst p) (snd p)) (combine h st).

Fixpoint blocks (n : nat) (bs : list Z) : list (list Z) :=
  match n with
  | O => []
  | S n' => firstn 64 bs :: blocks n' (skipn 64 bs)
  end.

(** [hashlib.sha256(msg).digest()]. *)
Definition sha256 (msg : list Z) : list Z :=
  let p := padding msg in
  let h := fold_left compress (blocks (length p / 64) p) H0 in
  flat_map (be_bytes 4) h.

End Sha256.

(** ** The world outside the repository *)

(** A [requests.Response]: only what the callers could look at. *)
Record Response : Type := mkResponse {
  status_code : Z;
  content : string
}.

(** One call of [Session.request(method, url, headers=..., json=...)]. *)
Record Sent : Type := mkSent {
  sent_method : pyval;
  sent_url : pyval;
  sent_headers : pyval;
  sent_json : pyval
}.

Definition loc : Type := nat.

(** What the code takes from its platform: the interpreter, the [requests]
    library and the network behind it, the SDK's version constant, and the
    model classes that are declared outside the modelled files. *)
Class Env : Type := {
  (** [repr(s)] of a str (decided by the Unicode tables of the interpreter) *)
  repr_str : string -> string;
  (** [nylas._client_sdk_version.__VERSION__] *)
  __VERSION__ : string;
  (** [sys.version_info] *)
  version_info : Z * Z * Z * string * Z;
  (** [Session.request]: what the session with this identity answers, given
      everything sent so far; it may raise *)
  session_request : list (loc * Sent) -> loc -> Sent -> result Response;
  (** [str(uuid.uuid4())] at the n-th draw *)
  uuid4 : nat -> string;
  (** [Response.json()] *)
  response_json : Response -> result pyval;
  (** [nylas.models.calendar.Calendar] and its [from_dict] *)
  Calendar : Type;
  Calendar_from_dict : pyval -> result Calendar;
  (** [nylas.models.auth.CodeExchangeResponse] and its [from_dict] *)
  CodeExchangeResponse : Type;
  CodeExchangeResponse_from_dict : Response -> result CodeExchangeResponse
}.

Section Urlencode.
Context {E : Env}.

(** [repr(v)]. *)
Fixpoint py_repr (v : pyval) : string :=
  match v with
  | VNone => "None"
  | VBool true => "True"
  | VBool false => "False"
  | VInt z => str_of_int z
  | VStr s => repr_str s
  | VList l => "[" +:+ join ", " (map py_repr l) +:+ "]"
  | VDict d =>
      "{" +:+ join ", "
            (map (fun kv => let '(k, x) := kv in repr_str k +:+ ": " +:+ py_repr x) d)
      +:+ "}"
  end.

(** [str(v)]. *)
Definition py_str (v : pyval) : string :=
  match v with
  | VStr s => s
  | _ => py_repr v
  end.

(** [urllib.parse.urlencode(query)] with its defaults: every item becomes
    [quote_plus(str(k)) + '=' + quote_plus(str(v))], joined by [&]. *)
Definition urlencode (query : dict) : string :=
  join "&"
    (map (fun kv => Urllib.quote_plus (fst kv) +:+ "=" +:+ Urllib.quote_plus (py_str (snd kv)))
         query).

End Urlencode.

(** ** Store and effects *)

Record HttpClientObj : Type := mkHttpClient {
  api_server : string;
  api_key : string;
  timeout : Z;
  session : loc
}.

Record state : Type := mkState {
  dicts : list dict;                (* the dict objects *)
  clients : list HttpClientObj;     (* the HttpClient objects *)
  sessions : nat;                   (* how many requests.Session objects exist *)
  wire : list (loc * Sent);         (* every Session.request so far, with its session *)
  uuids : nat                       (* how many uuids were drawn *)
}.

Definition M (A : Type) : Type := state -> result A * state.

Definition ret {A} (a : A) : M A := fun st => (Ok a, st).
Definition raise {A} (e : exn) : M A := fun st => (Raise e, st).
Definition lift {A} (r : result A) : M A := fun st => (r, st).
Definition bind {A B} (m : M A) (k : A -> M B) : M B :=
  fun st =>
    match m st with
    | (Ok a, st') => k a st'
    | (Raise e, st') => (Raise e, st')
    end.

Declare Scope py_scope.
Delimit Scope py_scope with py.
Notation "x <- m ;; k" := (bind m (fun x => k))
  (at level 100, m at next level, right associativity) : py_scope.
Notation "m ;; k" := (bind m (fun _ => k))
  (at level 100, right associativity) : py_scope.
Open Scope py_scope.

Module Store.

Definition with_dicts (ds : list dict) (st : state) : state :=
  mkState ds (clients st) (sessions st) (wire st) (uuids st).

Definition with_clients (cs : list HttpClientObj) (st : state) : state :=
  mkState (dicts st) cs (sessions st) (wire st) (uuids st).

Definition with_sessions (n : nat) (st : state) : state :=
  mkState (dicts st) (clients st) n (wire st) (uuids st).

Definition with_wire (w : list (loc * Sent)) (st : state) : state :=
  mkState (dicts st) (clients st) (sessions st) w (uuids st).

Definition with_uuids (n : nat) (st : state) : state :=
  mkState (dicts st) (clients st) (sessions st) (wire st) n.

(** A new dict object holding [d]. *)
Definition new_dict (d : dict) : M loc :=
  fun st => (Ok (length (dicts st)), with_dicts (dicts st ++ [d]) st).

Definition read_dict (l : loc) : M dict :=
  fun st =>
    match dicts st !! l with
    | Some d => (Ok d, st)
    | None => (Raise Dangling, st)
    end.

(** [obj[k]]. *)
Definition getitem (l : loc) (k : string) : M pyval :=
  d <- read_dict l ;; lift (Dict.getitem k d).

(** [obj[k] = v]. *)
Definition setitem (l : loc) (k : string) (v : pyval) : M unit :=
  fun st =>
    match dicts st !! l with
    | Some d => (Ok tt, with_dicts (<[l := Dict.set k v d]> (dicts st)) st)
    | None => (Raise Dangling, st)
    end.

(** The attributes of an HttpClient object. *)
Definition read_client (l : loc) : M HttpClientObj :=
  fun st =>
    match clients st !! l with
    | Some c => (Ok c, st)
    | None => (Raise Dangling, st)
    end.

(** [requests.Session()]. *)
Definition new_session : M loc :=
  fun st => (Ok (sessions st), with_sessions (S (sessions st)) st).

Definition new_client (c : HttpClientObj) : M loc :=
  fun st => (Ok (length (clients st)), with_clients (clients st ++ [c]) st).

(** [session.request(...)]: the call goes on the wire, the answer comes
    from the environment. *)
Definition request {E : Env} (s : loc) (x : Sent) : M Response :=
  fun st => (session_request (wire st) s x, with_wire (wire st ++ [(s, x)]) st).

(** [str(uuid.uuid4())]. *)
Definition draw_uuid {E : Env} : M string :=
  fun st => (Ok (uuid4 (uuids st)), with_uuids (S (uuids st)) st).

End Store.

(** An argument for a parameter that has no default value. *)
Inductive supplied (A : Type) : Type :=
| Given (a : A)
| Omitted.
Arguments Given {A} a.
Arguments Omitted {A}.

(** ** nylas/handler/http_client.py *)

Module HttpClient.
Section Methods.
Context {E : Env}.

Definition __init__ (api_server api_key : string) (timeout : Z) : M loc :=
  s <- Store.new_session ;;
  Store.new_client (mkHttpClient api_server api_key timeout s).

Definition _build_headers (self : loc) (extra_headers : option dict) : M dict :=
  let extra_headers :=
    match extra_headers with
    | None => []
    | Some e => e
    end in
  let '(major, minor, revision, _, _) := version_info in
  let user_agent_header :=
    "Nylas Python SDK " +:+ __VERSION__ +:+ " - " +:+ str_of_int major
      +:+ "." +:+ str_of_int minor +:+ "." +:+ str_of_int revision in
  c <- Store.read_client self ;;
  let headers : dict :=
    [("X-Nylas-API-Wrapper", VStr "python");
     ("User-Agent", VStr user_agent_header);
     ("Content-type", VStr "application/json");
     ("Authorization", VStr ("Bearer " +:+ api_key c))] in
  ret (Dict.merge headers extra_headers).

Definition _build_request (self : loc) (method path : string)
    (headers query_params : option dict) : M dict :=
  c <- Store.read_client self ;;
  let url := api_server c +:+ path in
  let url :=
    match query_params with
    | Some ((_ :: _) as q) => url +:+ "?" +:+ urlencode q
    | _ => url
    end in
  headers <- _build_headers self headers ;;
  ret [("method", VStr method); ("url", VStr url); ("headers", VDict headers)].

(** [headers] is declared as [headers: None], an annotation and not a
    default: a call that leaves it out fails when its arguments are
    bound. The body of a request is a dict object (or None); it is
    read when the request is sent. *)
Definition _execute (self : loc) (method path : string)
    (headers : supplied (option dict)) (query_params : option dict)
    (request_body : option loc) : M Response :=
  match headers with
  | Omitted =>
      raise (TypeError "_execute() missing 1 required positional argument: 'headers'")
  | Given headers =>
      request <- _build_request self method path headers query_params ;;
      c <- Store.read_client self ;;
      m <- lift (Dict.getitem "method" request) ;;
      u <- lift (Dict.getitem "url" request) ;;
      h <- lift (Dict.getitem "headers" request) ;;
      json <- match request_body with
              | None => ret VNone
              | Some l => d <- Store.read_dict l ;; ret (VDict d)
              end ;;
      Store.request (session c) (mkSent m u h json)
  end.

Definition get (self : loc) (path : string) (headers query_params : option dict)
    : M Response :=
  _execute self "GET" path (Given headers) query_params None.

Definition post (self : loc) (path : string) (headers query_params : option dict)
    (request_body : option loc) : M Response :=
  _execute self "POST" path (Given headers) query_params request_body.

Definition put (self : loc) (path : string) (headers query_params : option dict)
    (request_body : option loc) : M Response :=
  _execute self "PUT" path (Given headers) query_params request_body.

Definition patch (self : loc) (path : string) (headers query_params : option dict)
    (request_body : option loc) : M Response :=
  _execute self "PATCH" path (Given headers) query_params request_body.

Definition delete (self : loc) (path : string) (headers query_params : option dict)
    : M Response :=
  _execute self "DELETE" path (Given headers) query_params None.

End Methods.
End HttpClient.

(** ** nylas/models/list_response.py *)

Module ListResponse.

Record t (T : Type) : Type := mk {
  data : list T;
  request_id : pyval;
  next_cursor : pyval
}.
Arguments mk {T} data request_id next_cursor.
Arguments data {T} _.
Arguments request_id {T} _.
Arguments next_cursor {T} _.

(** The loop [for item in ...: converted_data.append(from_dict(item))]. *)
Fixpoint convert {T} (from_dict : pyval -> result T) (items : list pyval)
    (converted_data : list T) : result (list T) :=
  match items with
  | [] => Ok converted_data
  | item :: rest =>
      match from_dict item with
      | Ok x => convert from_dict rest (converted_data ++ [x])
      | Raise e => Raise e
      end
  end.

(** [generic_type] is given by its [from_dict]. *)
Definition from_dict {T} (resp : dict) (generic_type : pyval -> result T)
    : result (t T) :=
  match Dict.getitem "data" resp with
  | Raise e => Raise e
  | Ok d =>
      match iterate d with
      | Raise e => Raise e
      | Ok items =>
          match convert generic_type items [] with
          | Raise e => Raise e
          | Ok converted_data =>
              match Dict.getitem "request_id" resp with
              | Raise e => Raise e
              | Ok rid =>
                  Ok (mk converted_data rid (Dict.get_default "next_cursor" VNone resp))
              end
          end
      end
  end.

End ListResponse.

(** Modelled from the spec: nylas/resources/resource.py is not among the
    sources. The spec describes the resource wrappers as sharing one HTTP
    client: a resource object is the reference to it. *)
Record Resource : Type := mkResource { _http_client : loc }.

(** Modelled from the spec: nylas/handler/api_resources.py is not among the
    sources. The spec describes the operations of the resource wrappers as
    one-to-one mappings to HTTP verbs against fixed paths whose JSON
    responses are deserialized into typed models: [list] is a GET on the
    given path whose JSON body goes through [ListResponse.from_dict]. *)
Module ListableApiResource.
Section Methods.
Context {E : Env}.

Definition list {T} (self : Resource) (path : string)
    (response_type : pyval -> result T)
    (headers query_params : option dict) : M (ListResponse.t T) :=
  response <- HttpClient._execute (_http_client self) "GET" path
                (Given headers) query_params None ;;
  response_json <- lift (response_json response) ;;
  match response_json with
  | VDict resp => lift (ListResponse.from_dict resp response_type)
  | _ => raise (TypeError "response body is not an object")
  end.

End Methods.
End ListableApiResource.

(** The response models that the remaining wrappers name; their modules
    (nylas/models/auth.py, response.py, availability.py) are not among the
    sources, so each is a type with the [from_dict] the wrapper calls on
    what [_execute] returned. *)
Class Models : Type := {
  (** [TokenInfoResponse.from_dict] *)
  TokenInfoResponse : Type;
  TokenInfoResponse_from_dict : Response -> result TokenInfoResponse;
  (** [Response.from_dict(_, ProviderDetectResponse)] *)
  ProviderDetect : Type;
  ProviderDetect_from_dict : Response -> result ProviderDetect;
  (** [Response.from_dict(_, GetAvailabilityResponse)] *)
  Availability : Type;
  Availability_from_dict : Response -> result Availability
}.

(** ** nylas/resources/calendars.py *)

Module Calendars.
Section Methods.
Context {E : Env}.

Definition list (self : Resource) (identifier : string)
    : M (ListResponse.t Calendar) :=
  ListableApiResource.list self ("/v3/grants/" +:+ identifier +:+ "/calendars")
    Calendar_from_dict None None.

End Methods.

Section Availability.
Context {E : Env} {Mo : Models}.

Definition get_availability (self : Resource) (identifier : string)
    (request_body : loc) : M Availability :=
  json_response <- HttpClient._execute (_http_client self) "POST"
                     ("/v3/grants/" +:+ identifier +:+ "/calendar/availability")
                     Omitted None (Some request_body) ;;
  lift (Availability_from_dict json_response).

End Availability.
End Calendars.

(** ** nylas/resources/auth.py *)

(** Modelled from the spec: nylas/models/auth.py is not among the sources.
    [url_for_oauth2_pkce] constructs a PkceAuthUrl from three positional
    arguments: the secret, the hashed secret and the URL. *)
Record PkceAuthUrl : Type := mkPkceAuthUrl {
  secret : string;
  secret_hash : string;
  url : string
}.

Module Auth.

Definition _hash_pkce_secret (secret : string) : string :=
  let sha256_hash := Sha256.sha256 (encode secret) in
  decode (Base64.b64encode sha256_hash).

Definition _build_query (config : loc) : M loc :=
  Store.setitem config "response_type" (VStr "code") ;;
  access_type <- Store.getitem config "access_type" ;;
  (if negb (truthy access_type)
   then Store.setitem config "access_type" (VStr "online")
   else ret tt) ;;
  scopes <- Store.getitem config "scopes" ;;
  (if truthy scopes
   then
     scopes <- Store.getitem config "scopes" ;;
     joined <- lift (str_join " " scopes) ;;
     Store.setitem config "scopes" (VStr joined)
   else ret tt) ;;
  ret config.

Definition _build_query_with_pkce (config : loc) (secret_hash : string) : M loc :=
  params <- _build_query config ;;
  Store.setitem params "code_challenge" (VStr secret_hash) ;;
  Store.setitem params "code_challenge_method" (VStr "s256") ;;
  ret params.

Definition _build_query_with_admin_consent (config : loc) : M loc :=
  params <- _build_query config ;;
  Store.setitem params "response_type" (VStr "adminconsent") ;;
  credential_id <- Store.getitem config "credentialId" ;;
  Store.setitem params "credential_id" credential_id ;;
  ret params.

Section Methods.
Context {E : Env}.

Definition _url_auth_builder (self : Resource) (query : loc)
    : M string :=
  c <- Store.read_client (_http_client self) ;;
  q <- Store.read_dict query ;;
  ret (api_server c +:+ "/v3/connect/auth?" +:+ urlencode q).

Definition _get_token (self : Resource) (request_body : loc)
    : M CodeExchangeResponse :=
  json_response <- HttpClient._execute (_http_client self)
                     "POST" "/v3/connect/token" Omitted None (Some request_body) ;;
  lift (CodeExchangeResponse_from_dict json_response).

Definition url_for_oauth2 (self : Resource) (config : loc)
    : M string :=
  query <- _build_query config ;;
  _url_auth_builder self query.

Definition exchange_code_for_token (self : Resource)
    (request : loc) : M CodeExchangeResponse :=
  r <- Store.read_dict request ;;
  request_body <- Store.new_dict r ;;
  Store.setitem request_body "grant_type" (VStr "authorization_code") ;;
  _get_token self request_body.

Definition refresh_access_token (self : Resource)
    (request : loc) : M CodeExchangeResponse :=
  r <- Store.read_dict request ;;
  request_body <- Store.new_dict r ;;
  Store.setitem request_body "grant_type" (VStr "refresh_token") ;;
  _get_token self request_body.

Definition url_for_oauth2_pkce (self : Resource) (config : loc)
    : M PkceAuthUrl :=
  secret <- Store.draw_uuid ;;
  let secret_hash := _hash_pkce_secret secret in
  query <- _build_query_with_pkce config secret_hash ;;
  url <- _url_auth_builder self query ;;
  ret (mkPkceAuthUrl secret secret_hash url).

Definition url_for_admin_consent (self : Resource)
    (config : loc) : M string :=
  c <- Store.read_dict config ;;
  config_with_provider <-
    Store.new_dict (Dict.merge [("provider", VStr "microsoft")] c) ;;
  query <- _build_query_with_admin_consent config_with_provider ;;
  _url_auth_builder self query.

End Methods.

Section TokenMethods.
Context {E : Env} {Mo : Models}.

Definition _get_token_info (self : Resource) (query_params : dict)
    : M TokenInfoResponse :=
  json_response <- HttpClient._execute (_http_client self) "GET" "/v3/connect/tokeninfo"
                     Omitted (Some query_params) None ;;
  lift (TokenInfoResponse_from_dict json_response).

Definition id_token_info (self : Resource) (id_token : string) : M TokenInfoResponse :=
  let query_params : dict := [("id_token", VStr id_token)] in
  _get_token_info self query_params.

Definition validate_access_token (self : Resource) (access_token : string)
    : M TokenInfoResponse :=
  let query_params : dict := [("access_token", VStr access_token)] in
  _get_token_info self query_params.

Definition revoke (self : Resource) (token : string) : M bool :=
  HttpClient._execute (_http_client self) "POST" "/v3/connect/revoke"
    Omitted (Some [("token", VStr token)]) None ;;
  ret true.

Definition detect_provider (self : Resource) (params : dict) : M ProviderDetect :=
  json_response <- HttpClient._execute (_http_client self) "POST" "/v3/providers/detect"
                     Omitted (Some params) None ;;
  lift (ProviderDetect_from_dict json_response).

End TokenMethods.
End Auth.

(** * Properties *)

(** An environment to evaluate the code in: CPython 3.11.4, SDK 6.0.0b1,
    a server that answers every request with a 500, and plain ASCII reprs. *)
Definition example_env : Env := {|
  repr_str := fun s => "'" +:+ s +:+ "'";
  __VERSION__ := "6.0.0b1";
  version_info := (3, 11, 4, "final", 0);
  session_request := fun _ _ _ => Ok (mkResponse 500 "Internal Server Error");
  uuid4 := fun _ => "abc";
  response_json := fun _ => Ok (VDict [("data", VList []); ("request_id", VStr "r")]);
  Calendar := pyval;
  Calendar_from_dict := fun v => Ok v;
  CodeExchangeResponse := Response;
  CodeExchangeResponse_from_dict := fun r => Ok r
|}.

(** A store with one config dict and one client. *)
Definition example_config : dict :=
  [("client_id", VStr "abc"); ("access_type", VNone);
   ("scopes", VList [VStr "calendar"; VStr "email"]); ("credentialId", VStr "cred")].

Definition example_client : HttpClientObj :=
  mkHttpClient "https://api.nylas.com" "KEY" 30 0%nat.

Definition example_state : state :=
  mkState [example_config] [example_client] 1%nat [] 0%nat.

(** The four headers that every request carries: the wrapper tag, the
    user agent made of the SDK version and the interpreter version, the
    content type and the bearer token. *)
Definition default_headers {E : Env} (c : HttpClientObj) : dict :=
  let '(major, minor, revision, _, _) := version_info in
  [("X-Nylas-API-Wrapper", VStr "python");
   ("User-Agent",
    VStr ("Nylas Python SDK " +:+ __VERSION__ +:+ " - " +:+ str_of_int major
            +:+ "." +:+ str_of_int minor +:+ "." +:+ str_of_int revision));
   ("Content-type", VStr "application/json");
   ("Authorization", VStr ("Bearer " +:+ api_key c))].

(** What a request body contributes to the request: None, or the
    current contents of the dict object. *)
Definition json_of_body (request_body : option loc) (st : state) : option pyval :=
  match request_body with
  | None => Some VNone
  | Some l => VDict <$> dicts st !! l
  end.

(** One call of an operation of HttpClient. *)
Inductive call : Type :=
| Get (path : string) (headers query_params : option dict)
| Post (path : string) (headers query_params : option dict) (request_body : option loc)
| Put (path : string) (headers query_params : option dict) (request_body : option loc)
| Patch (path : string) (headers query_params : option dict) (request_body : option loc)
| Delete (path : string) (headers query_params : option dict)
| Execute (method path : string) (headers : supplied (option dict))
    (query_params : option dict) (request_body : option loc).

Definition run_call {E : Env} (self : loc) (op : call) : M Response :=
  match op with
  | Get path headers query_params => HttpClient.get self path headers query_params
  | Post path headers query_params request_body =>
      HttpClient.post self path headers query_params request_body
  | Put path headers query_params request_body =>
      HttpClient.put self path headers query_params request_body
  | Patch path headers query_params request_body =>
      HttpClient.patch self path headers query_params request_body
  | Delete path headers query_params => HttpClient.delete self path headers query_params
  | Execute method path headers query_params request_body =>
      HttpClient._execute self method path headers query_params request_body
  end.

(** A caller that goes on after every call, whether it returned or raised. *)
Fixpoint run_calls {E : Env} (self : loc) (ops : list call) (st : state) : state :=
  match ops with
  | [] => st
  | op :: ops' => run_calls self ops' (snd (run_call self op st))
  end.

(** The store in which the dict object at [l] holds [d]. *)
Definition holding (l : loc) (d : dict) (st : state) : state :=
  Store.with_dicts (<[l := d]> (dicts st)) st.

(** What [_build_query] does to the dict behind [config], and how it ends:
    the dict as it is left, with the exception if one was raised. *)
Definition query_step (c : dict) : result unit * dict :=
  let c1 := Dict.set "response_type" (VStr "code") c in
  match Dict.get "access_type" c1 with
  | None => (Raise (KeyError "access_type"), c1)
  | Some a =>
      let c2 := if truthy a then c1 else Dict.set "access_type" (VStr "online") c1 in
      match Dict.get "scopes" c2 with
      | None => (Raise (KeyError "scopes"), c2)
      | Some s =>
          if truthy s then
            match str_join " " s with
            | Ok joined => (Ok tt, Dict.set "scopes" (VStr joined) c2)
            | Raise e => (Raise e, c2)
            end
          else (Ok tt, c2)
      end
  end.

(** Model classes to evaluate the remaining wrappers with. *)
Definition example_models : Models := {|
  TokenInfoResponse := Response;
  TokenInfoResponse_from_dict := fun r => Ok r;
  ProviderDetect := Response;
  ProviderDetect_from_dict := fun r => Ok r;
  Availability := Response;
  Availability_from_dict := fun r => Ok r
|}.

(** The client [c] with another timeout. *)
Definition with_timeout (seconds : Z) (c : HttpClientObj) : HttpClientObj :=
  mkHttpClient (api_server c) (api_key c) seconds (session c).

(** The URL a request of client [c] goes to. *)
Definition request_url {E : Env} (c : HttpClientObj) (path : string)
    (query_params : option dict) : string :=
  match query_params with
  | Some ((_ :: _) as q) => (api_server c +:+ path) +:+ "?" +:+ urlencode q
  | _ => api_server c +:+ path
  end.

(** A call that may write into dicts and draw uuids, and nothing else: no
    request goes out, no client and no session is made or changed. *)
Definition offline (st st' : state) : Prop :=
  wire st' = wire st /\ clients st' = clients st /\ sessions st' = sessions st.

(** The TypeError of a call that leaves out a parameter without default. *)
Definition missing_headers : exn :=
  TypeError "_execute() missing 1 required positional argument: 'headers'".

(** The total length of a list of strings. *)
Definition total_length (l : list string) : nat :=
  fold_right (fun s n => (String.length s + n)%nat) 0%nat l.

(** A value a byte can have. *)
Definition is_byte (b : Z) : Prop := 0 <= b < 256.

(** The byte of one of the 64 characters of the base64 alphabet. *)
Definition is_base64_symbol (b : Z) : Prop :=
  exists n, 0 <= n < 64 /\ b = Base64.sextet n.

(** Every item is a str. *)
Definition all_str (l : list pyval) : bool :=
  forallb (fun v => match v with VStr _ => true | _ => false end) l.

(** The values [_build_query] accepts under 'scopes': the falsy ones, which
    it leaves alone, and the iterables of str, which [str.join] takes (a
    list whose items are all str, a str, a dict with its str keys). *)
Definition joinable (s : pyval) : bool :=
  match s with
  | VNone => true
  | VBool b => negb b
  | VInt z => z =? 0
  | VStr _ => true
  | VList l => all_str l
  | VDict _ => true
  end.

(** ** Dicts *)

Section DictFacts.

Lemma get_set_eq (k : string) (v : pyval) (d : dict) :
  Dict.get k (Dict.set k v d) = Some v.
Proof.
  induction d as [|[k' v'] d IH]; simpl.
  - now rewrite String.eqb_refl.
  - destruct (String.eqb k k') eqn:Hk; simpl; rewrite Hk; auto.
Qed.

Lemma get_set_ne (k k' : string) (v : pyval) (d : dict) :
  k <> k' -> Dict.get k' (Dict.set k v d) = Dict.get k' d.
Proof.
  intros Hne. induction d as [|[k0 v0] d IH]; simpl.
  - apply not_eq_sym, String.eqb_neq in Hne. now rewrite Hne.
  - destruct (String.eqb k k0) eqn:Hk; simpl.
    + apply String.eqb_eq in Hk. subst k0.
      apply not_eq_sym, String.eqb_neq in Hne. now rewrite Hne.
    + now rewrite IH.
Qed.

Lemma get_set (k k' : string) (v : pyval) (d : dict) :
  Dict.get k' (Dict.set k v d) = if String.eqb k k' then Some v else Dict.get k' d.
Proof.
  destruct (String.eqb k k') eqn:Hk.
  - apply String.eqb_eq in Hk. subst. apply get_set_eq.
  - apply String.eqb_neq in Hk. now apply get_set_ne.
Qed.

Lemma get_not_key (k : string) (d : dict) :
  k ∉ Dict.keys d -> Dict.get k d = None.
Proof.
  induction d as [|[k' v'] d IH]; simpl; intros Hk; [reflexivity|].
  rewrite not_elem_of_cons in Hk. destruct Hk as [Hne Hk].
  apply String.eqb_neq in Hne. rewrite Hne. auto.
Qed.

(** [{**a, **b}]: the value of [b] where [b] has the key, else that of [a]. *)
Lemma get_merge (k : string) (a b : dict) :
  Dict.wf b ->
  Dict.get k (Dict.merge a b) =
    match Dict.get k b with
    | Some v => Some v
    | None => Dict.get k a
    end.
Proof.
  unfold Dict.wf, Dict.merge. revert a.
  induction b as [|[k0 v0] b IH]; simpl; intros a Hwf; [reflexivity|].
  apply NoDup_cons in Hwf. destruct Hwf as [Hk0 Hwf].
  rewrite IH by exact Hwf.
  destruct (String.eqb k k0) eqn:Hk.
  - apply String.eqb_eq in Hk. subst k0.
    rewrite (get_not_key k b Hk0). apply get_set_eq.
  - apply String.eqb_neq in Hk.
    rewrite get_set_ne by (intros ->; now apply Hk). reflexivity.
Qed.

(** Key presence after a merge needs no assumption on [b]. *)
Lemma mem_set (k k' : string) (v : pyval) (d : dict) :
  Dict.mem k' (Dict.set k v d) = String.eqb k k' || Dict.mem k' d.
Proof.
  unfold Dict.mem. rewrite get_set. destruct (String.eqb k k'); reflexivity.
Qed.

Lemma mem_merge (k : string) (a b : dict) :
  Dict.mem k (Dict.merge a b) = Dict.mem k a || Dict.mem k b.
Proof.
  unfold Dict.merge. revert a.
  induction b as [|[k0 v0] b IH]; simpl; intros a.
  - now rewrite orb_false_r.
  - rewrite IH, mem_set.
    assert (Hcons : Dict.mem k ((k0, v0) :: b) = String.eqb k0 k || Dict.mem k b).
    { unfold Dict.mem. simpl. rewrite (String.eqb_sym k k0).
      destruct (String.eqb k0 k); reflexivity. }
    rewrite Hcons.
    destruct (String.eqb k0 k), (Dict.mem k a), (Dict.mem k b); reflexivity.
Qed.

End DictFacts.


(** ** Text *)

Lemma append_assoc (a b c : string) : (a +:+ b) +:+ c = a +:+ b +:+ c.
Proof.
  induction a as [|x a IH]; [reflexivity|].
  change (String x ((a +:+ b) +:+ c) = String x (a +:+ b +:+ c)).
  now rewrite IH.
Qed.

(** ** HttpClient: building a request *)

Section BuildRequest.
Context {E : Env}.

Lemma build_headers_run (self : loc) (c : HttpClientObj)
    (extra_headers : option dict) (st : state) :
  clients st !! self = Some c ->
  HttpClient._build_headers self extra_headers st =
    (Ok (Dict.merge (default_headers c) (default [] extra_headers)), st).
Proof.
  intros Hc.
  unfold HttpClient._build_headers, default_headers.
  destruct version_info as [[[[major minor] revision] level] serial].
  unfold bind, Store.read_client, ret. rewrite Hc.
  destruct extra_headers; reflexivity.
Qed.

Lemma build_request_run (self : loc) (c : HttpClientObj) (method path : string)
    (headers query_params : option dict) (st : state) :
  clients st !! self = Some c ->
  HttpClient._build_request self method path headers query_params st =
    (Ok [("method", VStr method);
         ("url", VStr match query_params with
                      | Some ((_ :: _) as q) => (api_server c +:+ path) +:+ "?" +:+ urlencode q
                      | _ => api_server c +:+ path
                      end);
         ("headers", VDict (Dict.merge (default_headers c) (default [] headers)))],
     st).
Proof.
  intros Hc.
  unfold HttpClient._build_request, bind, Store.read_client. rewrite Hc.
  rewrite (build_headers_run self c headers st Hc).
  reflexivity.
Qed.

End BuildRequest.

(** C1. For every api_server, path and query_params, [_build_request]
    returns a request whose url is api_server followed by path, followed by
    [?] and the urlencoded query_params exactly when query_params is
    non-empty; when query_params is empty or None the url is api_server
    followed by path. The request also carries the method it was given, and
    the store is left as it was. *)
Theorem build_request_url {E : Env} (self : loc) (c : HttpClientObj)
    (method path : string) (headers query_params : option dict) (st : state) :
  clients st !! self = Some c ->
  exists request u,
    HttpClient._build_request self method path headers query_params st = (Ok request, st)
    /\ Dict.get "url" request = Some (VStr u)
    /\ Dict.get "method" request = Some (VStr method)
    /\ (forall q, query_params = Some q -> q <> [] ->
          u = (api_server c +:+ path) +:+ "?" +:+ urlencode q)
    /\ (query_params = None \/ query_params = Some [] -> u = api_server c +:+ path).
Proof.
  intros Hc.
  rewrite (build_request_run self c method path headers query_params st Hc).
  eexists. eexists. split; [reflexivity|].
  split; [reflexivity|]. split; [reflexivity|]. split.
  - intros q -> Hq. destruct q; [contradiction|reflexivity].
  - intros [-> | ->]; reflexivity.
Qed.

Lemma build_request_url_witness :
  exists request u,
    HttpClient._build_request (E := example_env) 0%nat "GET" "/v3/grants"
      None (Some [("limit", VInt 5); ("q", VStr "a b")]) example_state
      = (Ok request, example_state)
    /\ Dict.get "url" request = Some (VStr u)
    /\ u = "https://api.nylas.com/v3/grants?limit=5&q=a+b".
Proof.
  destruct (build_request_url (E := example_env) 0%nat example_client "GET" "/v3/grants"
              None (Some [("limit", VInt 5); ("q", VStr "a b")]) example_state
              eq_refl)
    as (request & u & Hrun & Hurl & _ & Hq & _).
  exists request, u. split; [exact Hrun|]. split; [exact Hurl|].
  rewrite (Hq _ eq_refl); [reflexivity | discriminate].
Defined.

(** C2. For every extra_headers dict (or None), [_build_headers] returns
    the merge of the four default headers with extra_headers: a key of
    extra_headers is in the result with the value extra_headers gives it
    (overriding a default of the same name), and every other key has its
    default value. *)
Theorem build_headers_merge {E : Env} (self : loc) (c : HttpClientObj)
    (extra_headers : option dict) (st : state) :
  clients st !! self = Some c ->
  Dict.wf (default [] extra_headers) ->
  exists headers,
    HttpClient._build_headers self extra_headers st = (Ok headers, st)
    /\ (forall k v, Dict.get k (default [] extra_headers) = Some v ->
          Dict.get k headers = Some v)
    /\ (forall k, Dict.get k (default [] extra_headers) = None ->
          Dict.get k headers = Dict.get k (default_headers c)).
Proof.
  intros Hc Hwf.
  rewrite (build_headers_run self c extra_headers st Hc).
  eexists. split; [reflexivity|]. split.
  - intros k v Hk. rewrite get_merge by exact Hwf. now rewrite Hk.
  - intros k Hk. rewrite get_merge by exact Hwf. now rewrite Hk.
Qed.

Lemma build_headers_merge_witness :
  exists headers,
    HttpClient._build_headers (E := example_env) 0%nat
      (Some [("User-Agent", VStr "mine"); ("X-Trace", VStr "1")]) example_state
      = (Ok headers, example_state)
    /\ Dict.get "User-Agent" headers = Some (VStr "mine")
    /\ Dict.get "X-Trace" headers = Some (VStr "1")
    /\ Dict.get "Authorization" headers = Some (VStr "Bearer KEY").
Proof.
  destruct (build_headers_merge (E := example_env) 0%nat example_client
              (Some [("User-Agent", VStr "mine"); ("X-Trace", VStr "1")]) example_state
              eq_refl ltac:(unfold Dict.wf; simpl; compute_done))
    as (headers & Hrun & Hextra & Hdefault).
  exists headers. split; [exact Hrun|].
  split; [apply Hextra; reflexivity|].
  split; [apply Hextra; reflexivity|].
  rewrite Hdefault; reflexivity.
Defined.


(** ** HttpClient: sending a request *)

Section Execute.
Context {E : Env}.

(** With [headers] passed, [_execute] sends exactly one request, through the
    client's session, and returns whatever the session returned or raised. *)
Lemma execute_run (self : loc) (c : HttpClientObj) (method path : string)
    (headers query_params : option dict) (request_body : option loc)
    (json : pyval) (st : state) :
  clients st !! self = Some c ->
  json_of_body request_body st = Some json ->
  exists x,
    sent_method x = VStr method /\ sent_json x = json
    /\ sent_url x = VStr match query_params with
                         | Some ((_ :: _) as q) => (api_server c +:+ path) +:+ "?" +:+ urlencode q
                         | _ => api_server c +:+ path
                         end
    /\ sent_headers x = VDict (Dict.merge (default_headers c) (default [] headers))
    /\ HttpClient._execute self method path (Given headers) query_params request_body st
       = (session_request (wire st) (session c) x,
          Store.with_wire (wire st ++ [(session c, x)]) st).
Proof.
  intros Hc Hjson.
  unfold HttpClient._execute, bind.
  rewrite (build_request_run self c method path headers query_params st Hc).
  unfold Store.read_client. rewrite Hc. simpl.
  destruct request_body as [l|]; simpl in Hjson.
  - unfold bind, Store.read_dict.
    destruct (dicts st !! l) as [d|]; [|discriminate]. simpl in Hjson.
    injection Hjson as <-. simpl.
    eexists. repeat split; reflexivity.
  - injection Hjson as <-. simpl.
    eexists. repeat split; reflexivity.
Qed.

(** Whatever happens, an operation does not touch the client objects, the
    dicts or the set of sessions, and what it adds to the wire is at most
    one request, sent through the session of [self]. *)
Lemma execute_frame (self : loc) (method path : string)
    (headers : supplied (option dict)) (query_params : option dict)
    (request_body : option loc) (st : state) :
  let st' := snd (HttpClient._execute self method path headers query_params request_body st) in
  clients st' = clients st /\ dicts st' = dicts st /\ sessions st' = sessions st
  /\ uuids st' = uuids st
  /\ (wire st' = wire st
      \/ exists c x, clients st !! self = Some c /\ wire st' = wire st ++ [(session c, x)]).
Proof.
  destruct headers as [headers|]; [|simpl; auto 6].
  destruct (clients st !! self) as [c|] eqn:Hc.
  - destruct (json_of_body request_body st) as [json|] eqn:Hjson.
    + destruct (execute_run self c method path headers query_params request_body json st Hc Hjson)
        as (x & _ & _ & _ & _ & Hrun).
      rewrite Hrun. simpl. repeat split; auto. right. eauto.
    + destruct request_body as [l|]; [|discriminate]. simpl in Hjson.
      unfold HttpClient._execute, bind.
      rewrite (build_request_run self c method path headers query_params st Hc).
      unfold Store.read_client. rewrite Hc. simpl.
      unfold bind, Store.read_dict.
      destruct (dicts st !! l); [discriminate|]. simpl. auto 6.
  - unfold HttpClient._execute, HttpClient._build_request, bind, Store.read_client.
    rewrite Hc. simpl. auto 6.
Qed.

Lemma run_call_frame (self : loc) (op : call) (st : state) :
  let st' := snd (run_call self op st) in
  clients st' = clients st /\ dicts st' = dicts st /\ sessions st' = sessions st
  /\ uuids st' = uuids st
  /\ (wire st' = wire st
      \/ exists c x, clients st !! self = Some c /\ wire st' = wire st ++ [(session c, x)]).
Proof.
  destruct op; apply execute_frame.
Qed.

Lemma run_calls_frame (self : loc) (c : HttpClientObj) (ops : list call) (st : state) :
  clients st !! self = Some c ->
  let st' := run_calls self ops st in
  clients st' = clients st /\ dicts st' = dicts st /\ sessions st' = sessions st
  /\ exists sent, wire st' = wire st ++ sent /\ Forall (fun e => fst e = session c) sent.
Proof.
  revert st. induction ops as [|op ops IH]; intros st Hc; simpl.
  - repeat split; auto. exists []. split; [now rewrite app_nil_r | constructor].
  - destruct (run_call_frame self op st) as (Hcl & Hd & Hs & _ & Hw).
    set (st1 := snd (run_call self op st)) in *.
    assert (Hc1 : clients st1 !! self = Some c) by now rewrite Hcl.
    destruct (IH st1 Hc1) as (Hcl' & Hd' & Hs' & sent & Hw' & Hall).
    repeat split; try congruence.
    destruct Hw as [Hw | (c' & x & Hc' & Hw)].
    + exists sent. split; [congruence | exact Hall].
    + rewrite Hc in Hc'. injection Hc' as <-.
      exists ((session c, x) :: sent). split.
      * rewrite Hw', Hw, <- app_assoc. reflexivity.
      * constructor; [reflexivity | exact Hall].
Qed.

End Execute.

(** C3. For every response the session returns, [_execute] returns that
    response unchanged, whatever its HTTP status: with [headers] passed,
    the outcome of [_execute] is the outcome of the one [Session.request]
    call it makes, for every method, path, headers, query_params and
    request_body. *)
Theorem execute_returns_response {E : Env} (self : loc) (c : HttpClientObj)
    (method path : string) (headers query_params : option dict)
    (request_body : option loc) (json : pyval) (st : state) :
  clients st !! self = Some c ->
  json_of_body request_body st = Some json ->
  exists x,
    fst (HttpClient._execute self method path (Given headers) query_params request_body st)
      = session_request (wire st) (session c) x
    /\ wire (snd (HttpClient._execute self method path (Given headers) query_params
                    request_body st))
       = wire st ++ [(session c, x)]
    /\ forall r : Response,
         session_request (wire st) (session c) x = Ok r ->
         fst (HttpClient._execute self method path (Given headers) query_params
                request_body st) = Ok r.
Proof.
  intros Hc Hjson.
  destruct (execute_run self c method path headers query_params request_body json st Hc Hjson)
    as (x & _ & _ & _ & _ & Hrun).
  exists x. rewrite Hrun. simpl. split; [reflexivity|]. split; [reflexivity|].
  intros r Hr. exact Hr.
Qed.

Lemma execute_returns_response_witness :
  fst (HttpClient._execute (E := example_env) 0%nat "GET" "/v3/grants"
         (Given None) None None example_state)
  = Ok (mkResponse 500 "Internal Server Error").
Proof.
  destruct (execute_returns_response (E := example_env) 0%nat example_client
              "GET" "/v3/grants" None None None VNone example_state eq_refl eq_refl)
    as (x & _ & _ & Hok).
  apply Hok. reflexivity.
Defined.

(** C8. Every operation of HttpClient (get, post, put, patch, delete,
    _execute) leaves every client object, and so the fields api_server,
    api_key, timeout and session of its own client, unchanged; and every
    request goes through the one session made when the client was
    constructed: that session is new at construction, and after any
    sequence of operations on the client everything it put on the wire
    carries that session. *)
Theorem http_client_frame {E : Env} :
  (forall (self : loc) (op : call) (st : state),
     let st' := snd (run_call self op st) in
     clients st' = clients st /\ sessions st' = sessions st
     /\ (wire st' = wire st
         \/ exists c x, clients st !! self = Some c
                         /\ wire st' = wire st ++ [(session c, x)]))
  /\ (forall (server key : string) (seconds : Z) (st0 : state) (ops : list call),
       exists self st1 sent,
         HttpClient.__init__ server key seconds st0 = (Ok self, st1)
         /\ sessions st1 = S (sessions st0)
         /\ (forall other c, clients st0 !! other = Some c -> clients st1 !! other = Some c)
         /\ clients (run_calls self ops st1) !! self
            = Some (mkHttpClient server key seconds (sessions st0))
         /\ wire (run_calls self ops st1) = wire st0 ++ sent
         /\ length sent <= length ops
         /\ Forall (fun e => fst e = sessions st0) sent)%nat.
Proof.
  split.
  - intros self op st.
    destruct (run_call_frame self op st) as (Hcl & _ & Hs & _ & Hw). auto.
  - intros server key seconds st0 ops.
    set (c := mkHttpClient server key seconds (sessions st0)).
    set (st1 := Store.with_clients (clients st0 ++ [c])
                  (Store.with_sessions (S (sessions st0)) st0)).
    assert (Hself : clients st1 !! length (clients st0) = Some c).
    { unfold st1. simpl. now apply list_lookup_middle. }
    destruct (run_calls_frame (length (clients st0)) c ops st1 Hself)
      as (Hcl & _ & _ & sent & Hw & Hall).
    assert (Hlen : (length (wire (run_calls (length (clients st0)) ops st1))
                    <= length (wire st1) + length ops)%nat).
    { clear. generalize st1. induction ops as [|op ops IH]; intros st; simpl; [lia|].
      specialize (IH (snd (run_call (length (clients st0)) op st))).
      destruct (run_call_frame (length (clients st0)) op st) as (_ & _ & _ & _ & Hw).
      destruct Hw as [Hw | (c' & x & _ & Hw)]; rewrite Hw in IH.
      - lia.
      - rewrite length_app in IH. simpl in IH. lia. }
    exists (length (clients st0)), st1, sent.
    split; [reflexivity|]. split; [reflexivity|]. split.
    { intros other c0 Hother. unfold st1. simpl.
      rewrite lookup_app_l; [exact Hother|]. now apply lookup_lt_Some in Hother. }
    split; [now rewrite Hcl|]. split; [exact Hw|]. split; [|exact Hall].
    rewrite Hw in Hlen. rewrite length_app in Hlen. simpl in Hlen. lia.
Qed.

(** ** Resource wrappers and their paths *)

Section Paths.
Context {E : Env}.

Lemma url_auth_builder_run (self : Resource) (c : HttpClientObj) (query : loc)
    (q : dict) (st : state) :
  clients st !! _http_client self = Some c ->
  dicts st !! query = Some q ->
  Auth._url_auth_builder self query st
  = (Ok (api_server c +:+ "/v3/connect/auth?" +:+ urlencode q), st).
Proof.
  intros Hc Hq.
  unfold Auth._url_auth_builder, bind, Store.read_client, Store.read_dict, ret.
  now rewrite Hc, Hq.
Qed.

Lemma get_token_run (self : Resource) (request_body : loc) (st : state) :
  Auth._get_token self request_body st
  = (Raise (TypeError "_execute() missing 1 required positional argument: 'headers'"), st).
Proof. reflexivity. Qed.

End Paths.

(** C4, the part the code does not meet. [_get_token] calls [_execute]
    by keyword and leaves [headers] out, which [_execute] declares without
    a default: the call raises TypeError when its arguments are bound, for
    every request body, and nothing is sent. So neither
    [exchange_code_for_token] nor [refresh_access_token] puts a POST to
    /v3/connect/token (or anything else) on the wire. *)
Theorem get_token_sends_nothing {E : Env} (self : Resource) (request : loc)
    (st : state) :
  (exists msg, Auth._get_token self request st = (Raise (TypeError msg), st))
  /\ wire (snd (Auth.exchange_code_for_token self request st)) = wire st
  /\ wire (snd (Auth.refresh_access_token self request st)) = wire st
  /\ (forall r, fst (Auth.exchange_code_for_token self request st) <> Ok r)
  /\ (forall r, fst (Auth.refresh_access_token self request st) <> Ok r).
Proof.
  split; [eexists; apply get_token_run|].
  unfold Auth.exchange_code_for_token, Auth.refresh_access_token, bind,
    Store.read_dict, Store.new_dict, Store.setitem.
  destruct (dicts st !! request) as [r0|]; simpl.
  - rewrite list_lookup_middle by reflexivity. simpl.
    repeat split; intros r; discriminate.
  - repeat split; intros r; discriminate.
Qed.

(** For every query, [_url_auth_builder] builds a URL under
    /v3/connect/auth of the client's server, and touches nothing. *)
Theorem url_auth_builder_path {E : Env} (self : Resource) (c : HttpClientObj)
    (query : loc) (q : dict) (st : state) :
  clients st !! _http_client self = Some c ->
  dicts st !! query = Some q ->
  exists u,
    Auth._url_auth_builder self query st = (Ok u, st)
    /\ u = (api_server c +:+ "/v3/connect/auth") +:+ "?" +:+ urlencode q.
Proof.
  intros Hc Hq. rewrite (url_auth_builder_run self c query q st Hc Hq).
  eexists. split; [reflexivity|].
  now rewrite append_assoc.
Qed.

(** ** ListResponse *)

Section ListResponseFacts.
Context {T : Type} (generic_type : pyval -> result T).

(** The loop appends the conversions behind what was converted before. *)
Lemma convert_append (items : list pyval) (ys converted : list T) :
  Forall2 (fun item y => generic_type item = Ok y) items ys ->
  ListResponse.convert generic_type items converted = Ok (converted ++ ys).
Proof.
  intros Hall. revert converted.
  induction Hall as [|item y items ys Hy _ IH]; intros converted; simpl.
  - now rewrite app_nil_r.
  - rewrite Hy, IH, <- app_assoc. reflexivity.
Qed.

(** And it returns nothing else. *)
Lemma convert_returns (items : list pyval) (converted out : list T) :
  ListResponse.convert generic_type items converted = Ok out ->
  exists ys,
    out = converted ++ ys
    /\ Forall2 (fun item y => generic_type item = Ok y) items ys.
Proof.
  revert converted. induction items as [|item items IH]; intros converted; simpl.
  - intros [= <-]. exists []. split; [now rewrite app_nil_r | constructor].
  - destruct (generic_type item) as [y|e] eqn:Hy; [|discriminate].
    intros Hrest. destruct (IH _ Hrest) as (ys & -> & Hall).
    exists (y :: ys). split; [now rewrite <- app_assoc | now constructor].
Qed.

End ListResponseFacts.

(** C5. For every response dict with a list under 'data' and a value under
    'request_id', [ListResponse.from_dict] returns a ListResponse whose
    data is the conversion of the items of resp['data'] by
    generic_type.from_dict, item by item, in the same order and of the same
    length; whose request_id is resp['request_id']; and whose next_cursor is
    resp['next_cursor'] when the key is present and None otherwise. (The
    conversions are those of items that generic_type.from_dict accepts.) *)
Theorem from_dict_fields {T : Type} (resp : dict) (generic_type : pyval -> result T)
    (items : list pyval) (rid : pyval) (ys : list T) :
  Dict.get "data" resp = Some (VList items) ->
  Dict.get "request_id" resp = Some rid ->
  Forall2 (fun item y => generic_type item = Ok y) items ys ->
  exists r,
    ListResponse.from_dict resp generic_type = Ok r
    /\ ListResponse.data r = ys
    /\ length (ListResponse.data r) = length items
    /\ (forall (i : nat) (item : pyval), items !! i = Some item ->
         exists y, ListResponse.data r !! i = Some y /\ generic_type item = Ok y)
    /\ ListResponse.request_id r = rid
    /\ (forall c, Dict.get "next_cursor" resp = Some c -> ListResponse.next_cursor r = c)
    /\ (Dict.get "next_cursor" resp = None -> ListResponse.next_cursor r = VNone).
Proof.
  intros Hdata Hrid Hall.
  unfold ListResponse.from_dict, Dict.getitem, Dict.get_default.
  rewrite Hdata, Hrid. simpl.
  rewrite (convert_append generic_type items ys [] Hall). simpl.
  eexists. split; [reflexivity|]. simpl.
  split; [reflexivity|].
  split; [symmetry; eapply Forall2_length; exact Hall|].
  split.
  - intros i item Hi.
    destruct (Forall2_lookup_l _ _ _ _ _ Hall Hi) as (y & Hy & Hconv). eauto.
  - split; [reflexivity|]. split.
    + intros c ->. reflexivity.
    + intros ->. reflexivity.
Qed.

Lemma from_dict_fields_witness :
  exists r,
    ListResponse.from_dict
      [("request_id", VStr "r1"); ("data", VList [VInt 1; VInt 2]);
       ("next_cursor", VStr "c2")]
      (fun v => match v with VInt z => Ok (z + 1) | _ => Raise (TypeError "int") end)
    = Ok r
    /\ ListResponse.data r = [2; 3]
    /\ ListResponse.request_id r = VStr "r1"
    /\ ListResponse.next_cursor r = VStr "c2".
Proof.
  destruct (from_dict_fields
              [("request_id", VStr "r1"); ("data", VList [VInt 1; VInt 2]);
               ("next_cursor", VStr "c2")]
              (fun v => match v with VInt z => Ok (z + 1) | _ => Raise (TypeError "int") end)
              [VInt 1; VInt 2] (VStr "r1") [2; 3] eq_refl eq_refl
              ltac:(repeat constructor))
    as (r & Hrun & Hdata & _ & _ & Hrid & Hcur & _).
  exists r. split; [exact Hrun|]. split; [exact Hdata|]. split; [exact Hrid|].
  apply Hcur. reflexivity.
Defined.


(** ** The store *)

Section StoreFacts.

Lemma holding_same (l : loc) (d : dict) (st : state) :
  dicts st !! l = Some d -> holding l d st = st.
Proof.
  intros Hl. unfold holding, Store.with_dicts.
  rewrite list_insert_id by exact Hl. now destruct st.
Qed.

Lemma holding_lookup (l : loc) (d d0 : dict) (st : state) :
  dicts st !! l = Some d0 -> dicts (holding l d st) !! l = Some d.
Proof.
  intros Hl. simpl. apply list_lookup_insert_eq. now apply lookup_lt_Some in Hl.
Qed.

Lemma holding_other (l l' : loc) (d : dict) (st : state) :
  l <> l' -> dicts (holding l d st) !! l' = dicts st !! l'.
Proof. intros Hne. simpl. now apply list_lookup_insert_ne. Qed.

Lemma holding_holding (l : loc) (d d' : dict) (st : state) :
  holding l d' (holding l d st) = holding l d' st.
Proof.
  unfold holding, Store.with_dicts. simpl. now rewrite list_insert_insert_eq.
Qed.

Lemma setitem_holding (l : loc) (k : string) (v : pyval) (d d0 : dict) (st : state) :
  dicts st !! l = Some d0 ->
  Store.setitem l k v (holding l d st) = (Ok tt, holding l (Dict.set k v d) st).
Proof.
  intros Hl. unfold Store.setitem.
  rewrite (holding_lookup l d d0 st Hl).
  fold (holding l (Dict.set k v d) (holding l d st)).
  now rewrite holding_holding.
Qed.

Lemma getitem_holding (l : loc) (k : string) (d d0 : dict) (st : state) :
  dicts st !! l = Some d0 ->
  Store.getitem l k (holding l d st) = (Dict.getitem k d, holding l d st).
Proof.
  intros Hl. unfold Store.getitem, bind, Store.read_dict, lift.
  rewrite (holding_lookup l d d0 st Hl). now destruct (Dict.getitem k d).
Qed.

End StoreFacts.

(** ** Building the OAuth query *)

Section BuildQuery.

(** [_build_query] works on the caller's dict object: it leaves it as
    [query_step] says, and returns the same object. *)
Lemma build_query_holding (config : loc) (d d0 : dict) (st : state) :
  dicts st !! config = Some d0 ->
  Auth._build_query config (holding config d st)
  = (match fst (query_step d) with Ok _ => Ok config | Raise e => Raise e end,
     holding config (snd (query_step d)) st).
Proof.
  intros Hl. unfold Auth._build_query, query_step.
  unfold bind at 1. rewrite (setitem_holding _ _ _ _ _ _ Hl).
  set (c1 := Dict.set "response_type" (VStr "code") d).
  unfold bind at 1. rewrite (getitem_holding _ _ _ _ _ Hl). unfold Dict.getitem.
  destruct (Dict.get "access_type" c1) as [a|]; [|reflexivity].
  unfold bind at 1.
  assert (Hstep :
    (if negb (truthy a)
     then Store.setitem config "access_type" (VStr "online")
     else ret tt) (holding config c1 st)
    = (Ok tt, holding config
                (if truthy a then c1 else Dict.set "access_type" (VStr "online") c1) st)).
  { destruct (truthy a); simpl; [reflexivity|].
    apply (setitem_holding _ _ _ _ _ _ Hl). }
  rewrite Hstep. clear Hstep.
  set (c2 := if truthy a then c1 else Dict.set "access_type" (VStr "online") c1).
  unfold bind at 1. rewrite (getitem_holding _ _ _ _ _ Hl). unfold Dict.getitem.
  destruct (Dict.get "scopes" c2) as [s|] eqn:Hs; [|reflexivity].
  unfold bind at 1.
  destruct (truthy s).
  - unfold bind at 1. rewrite (getitem_holding _ _ _ _ _ Hl). unfold Dict.getitem.
    rewrite Hs. unfold bind at 1. unfold lift at 1.
    destruct (str_join " " s) as [joined|e]; [|reflexivity].
    rewrite (setitem_holding _ _ _ _ _ _ Hl). reflexivity.
  - reflexivity.
Qed.

Lemma build_query_run (config : loc) (c : dict) (st : state) :
  dicts st !! config = Some c ->
  Auth._build_query config st
  = (match fst (query_step c) with Ok _ => Ok config | Raise e => Raise e end,
     holding config (snd (query_step c)) st).
Proof.
  intros Hl. rewrite <- (holding_same config c st Hl) at 1.
  now apply build_query_holding with (d0 := c).
Qed.

End BuildQuery.

Section QueryStep.

Lemma expect_strs_strs (ss : list string) : expect_strs (map VStr ss) = Ok ss.
Proof.
  induction ss as [|s ss IH]; simpl; [reflexivity | now rewrite IH].
Qed.

Lemma str_join_strs (sep : string) (ss : list string) :
  str_join sep (VList (map VStr ss)) = Ok (join sep ss).
Proof. unfold str_join. simpl. now rewrite expect_strs_strs. Qed.

Lemma truthy_strs (ss : list string) :
  truthy (VList (map VStr ss)) = match ss with [] => false | _ => true end.
Proof. now destruct ss. Qed.

(** The first assignment is never undone. *)
Lemma query_step_response_type (c : dict) :
  Dict.get "response_type" (snd (query_step c)) = Some (VStr "code").
Proof.
  unfold query_step.
  set (c1 := Dict.set "response_type" (VStr "code") c).
  assert (H1 : Dict.get "response_type" c1 = Some (VStr "code")) by apply get_set_eq.
  destruct (Dict.get "access_type" c1) as [a|]; [|exact H1].
  set (c2 := if truthy a then c1 else Dict.set "access_type" (VStr "online") c1).
  assert (H2 : Dict.get "response_type" c2 = Some (VStr "code")).
  { unfold c2. destruct (truthy a); [exact H1|].
    rewrite get_set_ne by discriminate. exact H1. }
  destruct (Dict.get "scopes" c2) as [s|]; [|exact H2].
  destruct (truthy s); [|exact H2].
  destruct (str_join " " s); [|exact H2].
  simpl. rewrite get_set_ne by discriminate. exact H2.
Qed.



(** With both keys there and a list of str under 'scopes', no exception,
    and the dict is left with the three rewritten entries. *)
Lemma query_step_ok (c : dict) (a : pyval) (ss : list string) :
  Dict.get "access_type" c = Some a ->
  Dict.get "scopes" c = Some (VList (map VStr ss)) ->
  exists q,
    query_step c = (Ok tt, q)
    /\ Dict.get "response_type" q = Some (VStr "code")
    /\ Dict.get "access_type" q = Some (if truthy a then a else VStr "online")
    /\ Dict.get "scopes" q
       = Some (match ss with [] => VList [] | _ => VStr (join " " ss) end)
    /\ (forall k, k <> "response_type" -> k <> "access_type" -> k <> "scopes" ->
         Dict.get k q = Dict.get k c).
Proof.
  intros Ha Hs.
  pose proof (query_step_response_type c) as Hrt.
  unfold query_step in *.
  set (c1 := Dict.set "response_type" (VStr "code") c) in *.
  assert (Ha1 : Dict.get "access_type" c1 = Some a).
  { unfold c1. rewrite get_set_ne by discriminate. exact Ha. }
  rewrite Ha1 in *.
  set (c2 := if truthy a then c1 else Dict.set "access_type" (VStr "online") c1) in *.
  assert (Ha2 : Dict.get "access_type" c2 = Some (if truthy a then a else VStr "online")).
  { unfold c2. destruct (truthy a); [exact Ha1 | apply get_set_eq]. }
  assert (Hother : forall k, k <> "response_type" -> k <> "access_type" ->
                     Dict.get k c2 = Dict.get k c).
  { intros k Hk1 Hk2. unfold c2, c1.
    destruct (truthy a); rewrite !get_set_ne by congruence; reflexivity. }
  assert (Hs2 : Dict.get "scopes" c2 = Some (VList (map VStr ss))).
  { rewrite Hother by discriminate. exact Hs. }
  rewrite Hs2 in *. rewrite truthy_strs in *.
  destruct ss as [|s ss].
  - exists c2. split; [reflexivity|]. split; [exact Hrt|]. split; [exact Ha2|].
    split; [exact Hs2|]. intros k Hk1 Hk2 _. now apply Hother.
  - rewrite str_join_strs in *.
    eexists. split; [reflexivity|]. split; [exact Hrt|]. split.
    + rewrite get_set_ne by discriminate. exact Ha2.
    + split; [apply get_set_eq|]. intros k Hk1 Hk2 Hk3.
      rewrite get_set_ne by congruence. now apply Hother.
Qed.

(** Outside the config type: under 'scopes', a value that is not an
    iterable of str makes [str.join] raise TypeError. *)
Example query_step_scopes_int :
  fst (query_step [("access_type", VStr "online"); ("scopes", VInt 5)])
  = Raise (TypeError "can only join an iterable").
Proof. reflexivity. Qed.

End QueryStep.

Section AuthRuns.
Context {E : Env}.

Lemma build_query_with_pkce_run (config : loc) (c : dict) (secret_hash : string)
    (st : state) :
  dicts st !! config = Some c ->
  Auth._build_query_with_pkce config secret_hash st
  = match fst (query_step c) with
    | Ok _ =>
        (Ok config,
         holding config
           (Dict.set "code_challenge_method" (VStr "s256")
              (Dict.set "code_challenge" (VStr secret_hash) (snd (query_step c)))) st)
    | Raise e => (Raise e, holding config (snd (query_step c)) st)
    end.
Proof.
  intros Hl. unfold Auth._build_query_with_pkce.
  unfold bind at 1. rewrite (build_query_run config c st Hl).
  destruct (fst (query_step c)); [|reflexivity].
  unfold bind at 1. rewrite (setitem_holding _ _ _ _ _ _ Hl).
  unfold bind at 1. rewrite (setitem_holding _ _ _ _ _ _ Hl).
  reflexivity.
Qed.

Lemma build_query_with_admin_consent_run (config : loc) (c : dict) (st : state) :
  dicts st !! config = Some c ->
  Auth._build_query_with_admin_consent config st
  = match fst (query_step c) with
    | Ok _ =>
        let q := Dict.set "response_type" (VStr "adminconsent") (snd (query_step c)) in
        match Dict.get "credentialId" q with
        | Some v => (Ok config, holding config (Dict.set "credential_id" v q) st)
        | None => (Raise (KeyError "credentialId"), holding config q st)
        end
    | Raise e => (Raise e, holding config (snd (query_step c)) st)
    end.
Proof.
  intros Hl. unfold Auth._build_query_with_admin_consent.
  unfold bind at 1. rewrite (build_query_run config c st Hl).
  destruct (fst (query_step c)); [|reflexivity].
  unfold bind at 1. rewrite (setitem_holding _ _ _ _ _ _ Hl).
  unfold bind at 1. rewrite (getitem_holding _ _ _ _ _ Hl). unfold Dict.getitem.
  cbv zeta.
  destruct (Dict.get "credentialId" _) as [v|]; [|reflexivity].
  unfold bind at 1. rewrite (setitem_holding _ _ _ _ _ _ Hl).
  reflexivity.
Qed.

Lemma url_auth_builder_holding (self : Resource) (cl : HttpClientObj) (query : loc)
    (q d0 : dict) (st : state) :
  clients st !! _http_client self = Some cl ->
  dicts st !! query = Some d0 ->
  Auth._url_auth_builder self query (holding query q st)
  = (Ok (api_server cl +:+ "/v3/connect/auth?" +:+ urlencode q), holding query q st).
Proof.
  intros Hc Hl. apply url_auth_builder_run; [exact Hc|].
  now apply holding_lookup with (d0 := d0).
Qed.

Lemma url_for_oauth2_run (self : Resource) (cl : HttpClientObj) (config : loc)
    (c : dict) (st : state) :
  clients st !! _http_client self = Some cl ->
  dicts st !! config = Some c ->
  Auth.url_for_oauth2 self config st
  = (match fst (query_step c) with
     | Ok _ => Ok (api_server cl +:+ "/v3/connect/auth?" +:+ urlencode (snd (query_step c)))
     | Raise e => Raise e
     end,
     holding config (snd (query_step c)) st).
Proof.
  intros Hc Hl. unfold Auth.url_for_oauth2, bind.
  rewrite (build_query_run config c st Hl).
  destruct (fst (query_step c)); [|reflexivity].
  now rewrite (url_auth_builder_holding self cl config _ c st Hc Hl).
Qed.

Lemma url_for_oauth2_pkce_run (self : Resource) (cl : HttpClientObj) (config : loc)
    (c : dict) (st : state) :
  clients st !! _http_client self = Some cl ->
  dicts st !! config = Some c ->
  Auth.url_for_oauth2_pkce self config st
  = let secret := uuid4 (uuids st) in
    let secret_hash := Auth._hash_pkce_secret secret in
    let st1 := Store.with_uuids (S (uuids st)) st in
    match fst (query_step c) with
    | Ok _ =>
        let q := Dict.set "code_challenge_method" (VStr "s256")
                   (Dict.set "code_challenge" (VStr secret_hash) (snd (query_step c))) in
        (Ok (mkPkceAuthUrl secret secret_hash
               (api_server cl +:+ "/v3/connect/auth?" +:+ urlencode q)),
         holding config q st1)
    | Raise e => (Raise e, holding config (snd (query_step c)) st1)
    end.
Proof.
  intros Hc Hl. unfold Auth.url_for_oauth2_pkce.
  unfold bind at 1. unfold Store.draw_uuid at 1. cbv zeta.
  set (st1 := Store.with_uuids (S (uuids st)) st).
  assert (Hl1 : dicts st1 !! config = Some c) by exact Hl.
  assert (Hc1 : clients st1 !! _http_client self = Some cl) by exact Hc.
  unfold bind at 1.
  rewrite (build_query_with_pkce_run config c _ st1 Hl1).
  destruct (fst (query_step c)); [|reflexivity].
  unfold bind at 1.
  now rewrite (url_auth_builder_holding self cl config _ c st1 Hc1 Hl1).
Qed.

Lemma url_for_admin_consent_run (self : Resource) (cl : HttpClientObj) (config : loc)
    (c : dict) (st : state) :
  clients st !! _http_client self = Some cl ->
  dicts st !! config = Some c ->
  Auth.url_for_admin_consent self config st
  = let m := Dict.merge [("provider", VStr "microsoft")] c in
    let fresh := length (dicts st) in
    let st1 := Store.with_dicts (dicts st ++ [m]) st in
    match fst (query_step m) with
    | Ok _ =>
        let q := Dict.set "response_type" (VStr "adminconsent") (snd (query_step m)) in
        match Dict.get "credentialId" q with
        | Some v =>
            (Ok (api_server cl +:+ "/v3/connect/auth?"
                   +:+ urlencode (Dict.set "credential_id" v q)),
             holding fresh (Dict.set "credential_id" v q) st1)
        | None => (Raise (KeyError "credentialId"), holding fresh q st1)
        end
    | Raise e => (Raise e, holding fresh (snd (query_step m)) st1)
    end.
Proof.
  intros Hc Hl. unfold Auth.url_for_admin_consent.
  unfold bind at 1. unfold Store.read_dict at 1. rewrite Hl.
  unfold bind at 1. unfold Store.new_dict at 1. cbv zeta.
  set (m := Dict.merge [("provider", VStr "microsoft")] c).
  set (st1 := Store.with_dicts (dicts st ++ [m]) st).
  assert (Hl1 : dicts st1 !! length (dicts st) = Some m).
  { unfold st1. simpl. now apply list_lookup_middle. }
  assert (Hc1 : clients st1 !! _http_client self = Some cl) by exact Hc.
  unfold bind at 1.
  rewrite (build_query_with_admin_consent_run _ m st1 Hl1).
  destruct (fst (query_step m)); [|reflexivity].
  cbv zeta. destruct (Dict.get "credentialId" _) as [v|]; [|reflexivity].
  now rewrite (url_auth_builder_holding self cl _ _ m st1 Hc1 Hl1).
Qed.

End AuthRuns.

(** C6. For every config dict holding 'access_type' and a list of str under
    'scopes', [_build_query] (and hence [url_for_oauth2], whose URL encodes
    that query) produces a query in which 'response_type' is 'code',
    'access_type' is 'online' when its original value was falsy and is
    kept otherwise, 'scopes' is its items joined with single spaces when
    the list is non-empty, and every other key keeps its value. The query
    is the caller's dict object itself. *)
Theorem build_query_fields {E : Env} (self : Resource) (cl : HttpClientObj)
    (config : loc) (c : dict) (a : pyval) (ss : list string) (st : state) :
  clients st !! _http_client self = Some cl ->
  dicts st !! config = Some c ->
  Dict.get "access_type" c = Some a ->
  Dict.get "scopes" c = Some (VList (map VStr ss)) ->
  exists q,
    Auth._build_query config st = (Ok config, holding config q st)
    /\ Auth.url_for_oauth2 self config st
       = (Ok (api_server cl +:+ "/v3/connect/auth?" +:+ urlencode q), holding config q st)
    /\ Dict.get "response_type" q = Some (VStr "code")
    /\ Dict.get "access_type" q = Some (if truthy a then a else VStr "online")
    /\ (ss <> [] -> Dict.get "scopes" q = Some (VStr (join " " ss)))
    /\ (forall k, k <> "response_type" -> k <> "access_type" -> k <> "scopes" ->
         Dict.get k q = Dict.get k c).
Proof.
  intros Hc Hl Ha Hs.
  destruct (query_step_ok c a ss Ha Hs) as (q & Hstep & Hrt & Hat & Hsc & Hother).
  exists q.
  rewrite (build_query_run config c st Hl).
  rewrite (url_for_oauth2_run self cl config c st Hc Hl).
  rewrite Hstep. simpl.
  split; [reflexivity|]. split; [reflexivity|]. split; [exact Hrt|].
  split; [exact Hat|]. split; [|exact Hother].
  intros Hne. rewrite Hsc. destruct ss; [contradiction | reflexivity].
Qed.

Lemma build_query_fields_witness :
  exists q,
    Auth.url_for_oauth2 (E := example_env) (mkResource 0%nat) 0%nat example_state
    = (Ok ("https://api.nylas.com/v3/connect/auth?" +:+ urlencode (E := example_env) q),
       holding 0%nat q example_state)
    /\ Dict.get "response_type" q = Some (VStr "code")
    /\ Dict.get "access_type" q = Some (VStr "online")
    /\ Dict.get "scopes" q = Some (VStr "calendar email")
    /\ Dict.get "client_id" q = Some (VStr "abc").
Proof.
  destruct (build_query_fields (E := example_env) (mkResource 0%nat) example_client 0%nat
              example_config VNone ["calendar"; "email"] example_state
              eq_refl eq_refl eq_refl eq_refl)
    as (q & _ & Hurl & Hrt & Hat & Hsc & Hother).
  exists q. split; [exact Hurl|]. split; [exact Hrt|]. split; [exact Hat|].
  split; [apply Hsc; discriminate|].
  rewrite Hother; [reflexivity | discriminate | discriminate | discriminate].
Defined.

Section UrlencodeFacts.
Context {E : Env}.

Lemma get_In (k : string) (v : pyval) (d : dict) :
  Dict.get k d = Some v -> In (k, v) d.
Proof.
  induction d as [|[k' v'] d IH]; simpl; [discriminate|].
  destruct (String.eqb k k') eqn:Hk.
  - apply String.eqb_eq in Hk. intros [= ->]. subst. now left.
  - intros Hget. right. now apply IH.
Qed.

(** Every item of the query is one [key=value] piece of the encoding. *)
Lemma urlencode_item (k : string) (v : pyval) (q : dict) :
  Dict.get k q = Some v ->
  exists pieces,
    urlencode q = join "&" pieces
    /\ In (Urllib.quote_plus k +:+ "=" +:+ Urllib.quote_plus (py_str v)) pieces.
Proof.
  intros Hget. eexists. split; [reflexivity|].
  apply (in_map (fun kv => Urllib.quote_plus (fst kv) +:+ "=" +:+
                             Urllib.quote_plus (py_str (snd kv))) q (k, v)).
  now apply get_In.
Qed.

End UrlencodeFacts.

(** C7. For every secret, [_hash_pkce_secret] is the standard base64
    encoding of the SHA-256 digest of the secret's UTF-8 bytes; and
    [url_for_oauth2_pkce] returns a PkceAuthUrl whose secret is the uuid it
    drew, whose hashed secret is [_hash_pkce_secret] of that secret, and
    whose URL encodes a query holding 'code_challenge' with that hash and
    'code_challenge_method' with 's256'. *)
Theorem pkce_hash_and_url {E : Env} (self : Resource) (cl : HttpClientObj)
    (config : loc) (c : dict) (a : pyval) (ss : list string) (st : state) :
  clients st !! _http_client self = Some cl ->
  dicts st !! config = Some c ->
  Dict.get "access_type" c = Some a ->
  Dict.get "scopes" c = Some (VList (map VStr ss)) ->
  (forall s : string,
     Auth._hash_pkce_secret s = decode (Base64.b64encode (Sha256.sha256 (encode s))))
  /\ exists p q st' pieces,
       Auth.url_for_oauth2_pkce self config st = (Ok p, st')
       /\ secret p = uuid4 (uuids st)
       /\ secret_hash p = Auth._hash_pkce_secret (secret p)
       /\ url p = api_server cl +:+ "/v3/connect/auth?" +:+ urlencode q
       /\ dicts st' !! config = Some q
       /\ Dict.get "code_challenge" q = Some (VStr (secret_hash p))
       /\ Dict.get "code_challenge_method" q = Some (VStr "s256")
       /\ urlencode q = join "&" pieces
       /\ In ("code_challenge=" +:+ Urllib.quote_plus (secret_hash p)) pieces
       /\ In "code_challenge_method=s256" pieces.
Proof.
  intros Hc Hl Ha Hs. split; [reflexivity|].
  destruct (query_step_ok c a ss Ha Hs) as (q0 & Hstep & _).
  rewrite (url_for_oauth2_pkce_run self cl config c st Hc Hl).
  rewrite Hstep. cbv zeta. simpl fst. simpl snd.
  set (h := Auth._hash_pkce_secret (uuid4 (uuids st))).
  set (q := Dict.set "code_challenge_method" (VStr "s256")
              (Dict.set "code_challenge" (VStr h) q0)).
  assert (Hcc : Dict.get "code_challenge" q = Some (VStr h)).
  { unfold q. rewrite get_set_ne by discriminate. apply get_set_eq. }
  assert (Hcm : Dict.get "code_challenge_method" q = Some (VStr "s256"))
    by apply get_set_eq.
  exists (mkPkceAuthUrl (uuid4 (uuids st)) h
            (api_server cl +:+ "/v3/connect/auth?" +:+ urlencode q)),
    q, (holding config q (Store.with_uuids (S (uuids st)) st)),
    (map (fun kv => Urllib.quote_plus (fst kv) +:+ "=" +:+
                      Urllib.quote_plus (py_str (snd kv))) q).
  split; [reflexivity|]. split; [reflexivity|]. split; [reflexivity|].
  split; [reflexivity|]. split.
  { apply holding_lookup with (d0 := c). exact Hl. }
  split; [exact Hcc|]. split; [exact Hcm|]. split; [reflexivity|]. split.
  - apply (in_map (fun kv => Urllib.quote_plus (fst kv) +:+ "=" +:+
                               Urllib.quote_plus (py_str (snd kv))) q
             ("code_challenge", VStr h)).
    now apply get_In.
  - apply (in_map (fun kv => Urllib.quote_plus (fst kv) +:+ "=" +:+
                               Urllib.quote_plus (py_str (snd kv))) q
             ("code_challenge_method", VStr "s256")).
    now apply get_In.
Qed.

Lemma pkce_hash_and_url_witness :
  Auth._hash_pkce_secret "abc" = "ungWv48Bz+pBQUDeXa4iI7ADYaOWF3qctBD/YfIAFa0="
  /\ exists p st',
       Auth.url_for_oauth2_pkce (E := example_env) (mkResource 0%nat) 0%nat example_state
       = (Ok p, st')
       /\ secret p = "abc"
       /\ secret_hash p = "ungWv48Bz+pBQUDeXa4iI7ADYaOWF3qctBD/YfIAFa0=".
Proof.
  destruct (pkce_hash_and_url (E := example_env) (mkResource 0%nat) example_client 0%nat
              example_config VNone ["calendar"; "email"] example_state
              eq_refl eq_refl eq_refl eq_refl)
    as (Hhash & p & q & st' & pieces & Hrun & Hsecret & Hsh & _).
  split; [rewrite Hhash; vm_compute; reflexivity|].
  exists p, st'. split; [exact Hrun|]. split; [exact Hsecret|].
  rewrite Hsh, Hsecret. vm_compute. reflexivity.
Defined.

Section AdminConsent.

(** [{"provider": "microsoft", **config}] holds what [config] holds, under
    every key but 'provider'. *)
Lemma get_with_provider (k : string) (v : pyval) (c : dict) :
  Dict.wf c -> k <> "provider" ->
  Dict.get k (Dict.merge [("provider", v)] c) = Dict.get k c.
Proof.
  intros Hwf Hk. rewrite get_merge by exact Hwf.
  destruct (Dict.get k c); [reflexivity|].
  simpl. apply String.eqb_neq in Hk. now rewrite Hk.
Qed.

(** After the query is built, 'credentialId' is what the config gave. *)
Lemma get_credential_id (c q : dict) :
  (forall k, k <> "response_type" -> k <> "access_type" -> k <> "scopes" ->
     Dict.get k q = Dict.get k c) ->
  Dict.get "credentialId" (Dict.set "response_type" (VStr "adminconsent") q)
  = Dict.get "credentialId" c.
Proof.
  intros Hother. rewrite get_set_ne by discriminate.
  apply Hother; discriminate.
Qed.

End AdminConsent.

(** ** Who writes into the caller's dict *)

Section Aliasing.
Context {E : Env}.

(** A call that only allocates, and writes only into what it allocated,
    leaves every dict that existed before as it was. *)
Lemma fresh_holding_keeps (l : loc) (d q : dict) (extra : dict) (st : state) :
  dicts st !! l = Some d ->
  dicts (holding (length (dicts st)) q (Store.with_dicts (dicts st ++ [extra]) st)) !! l
  = Some d.
Proof.
  intros Hl. pose proof (lookup_lt_Some _ _ _ Hl) as Hlt.
  rewrite holding_other by lia. simpl.
  rewrite lookup_app_l by exact Hlt. exact Hl.
Qed.

Lemma url_auth_builder_state (self : Resource) (query : loc) (st : state) :
  snd (Auth._url_auth_builder self query st) = st.
Proof.
  unfold Auth._url_auth_builder, bind, Store.read_client, Store.read_dict, ret.
  destruct (clients st !! _http_client self); [|reflexivity].
  destruct (dicts st !! query); reflexivity.
Qed.

Lemma url_for_admin_consent_keeps (self : Resource) (config l : loc) (d : dict)
    (st : state) :
  dicts st !! l = Some d ->
  dicts (snd (Auth.url_for_admin_consent self config st)) !! l = Some d.
Proof.
  intros Hl. unfold Auth.url_for_admin_consent.
  unfold bind at 1. unfold Store.read_dict at 1.
  destruct (dicts st !! config) as [c|] eqn:Hcfg; [|exact Hl].
  unfold bind at 1. unfold Store.new_dict at 1.
  set (m := Dict.merge [("provider", VStr "microsoft")] c).
  set (st1 := Store.with_dicts (dicts st ++ [m]) st).
  assert (Hl1 : dicts st1 !! length (dicts st) = Some m).
  { unfold st1. simpl. now apply list_lookup_middle. }
  unfold bind at 1.
  rewrite (build_query_with_admin_consent_run _ m st1 Hl1).
  destruct (fst (query_step m)); cbv zeta.
  - destruct (Dict.get "credentialId" _) as [v|].
    + rewrite url_auth_builder_state. apply fresh_holding_keeps; exact Hl.
    + apply fresh_holding_keeps; exact Hl.
  - apply fresh_holding_keeps; exact Hl.
Qed.

Lemma token_request_keeps (grant_type : string) (self : Resource) (request l : loc)
    (d : dict) (st : state) :
  dicts st !! l = Some d ->
  dicts (snd ((r <- Store.read_dict request ;;
               request_body <- Store.new_dict r ;;
               Store.setitem request_body "grant_type" (VStr grant_type) ;;
               Auth._get_token self request_body) st)) !! l = Some d.
Proof.
  intros Hl. unfold bind, Store.read_dict, Store.new_dict, Store.setitem.
  destruct (dicts st !! request) as [r0|]; [|exact Hl].
  simpl. rewrite list_lookup_middle by reflexivity. simpl.
  pose proof (lookup_lt_Some _ _ _ Hl) as Hlt.
  rewrite list_lookup_insert_ne by lia.
  rewrite lookup_app_l by exact Hlt. exact Hl.
Qed.

End Aliasing.

(** C9 as stated fails for [url_for_admin_consent]: the call returns a
    URL, and the caller's config dict is what it was, with no
    'response_type' in it. *)
Lemma admin_consent_keeps_config :
  (exists u,
     fst (Auth.url_for_admin_consent (E := example_env) (mkResource 0%nat) 0%nat
            example_state) = Ok u)
  /\ dicts (snd (Auth.url_for_admin_consent (E := example_env) (mkResource 0%nat) 0%nat
                  example_state)) !! 0%nat
     = Some example_config
  /\ Dict.get "response_type" example_config = None
  /\ Dict.get "access_type" example_config = Some VNone
  /\ Dict.get "scopes" example_config = Some (VList [VStr "calendar"; VStr "email"]).
Proof.
  split; [eexists; vm_compute; reflexivity|].
  split; [vm_compute; reflexivity|].
  repeat split; reflexivity.
Qed.

(** C9, amended. [_build_query] writes into its argument: after
    [url_for_oauth2] or [url_for_oauth2_pkce], whether it returned or
    raised, the caller's config dict has 'response_type' set to 'code', and
    when 'access_type' and a list of str under 'scopes' were there,
    'access_type' is 'online' if it was falsy and 'scopes' is the joined
    string if the list was non-empty. [url_for_admin_consent] works on a
    new dict, and [exchange_code_for_token] and [refresh_access_token] on a
    copy: they leave every dict of the caller unchanged. *)
Theorem config_aliasing {E : Env} (self : Resource) (cl : HttpClientObj)
    (config : loc) (c : dict) (st : state) :
  clients st !! _http_client self = Some cl ->
  dicts st !! config = Some c ->
  (exists q,
     dicts (snd (Auth.url_for_oauth2 self config st)) !! config = Some q
     /\ Dict.get "response_type" q = Some (VStr "code")
     /\ forall a ss,
          Dict.get "access_type" c = Some a ->
          Dict.get "scopes" c = Some (VList (map VStr ss)) ->
          Dict.get "access_type" q = Some (if truthy a then a else VStr "online")
          /\ Dict.get "scopes" q
             = Some (match ss with [] => VList [] | _ => VStr (join " " ss) end))
  /\ (exists q,
       dicts (snd (Auth.url_for_oauth2_pkce self config st)) !! config = Some q
       /\ Dict.get "response_type" q = Some (VStr "code")
       /\ forall a ss,
            Dict.get "access_type" c = Some a ->
            Dict.get "scopes" c = Some (VList (map VStr ss)) ->
            Dict.get "access_type" q = Some (if truthy a then a else VStr "online")
            /\ Dict.get "scopes" q
               = Some (match ss with [] => VList [] | _ => VStr (join " " ss) end))
  /\ (forall l d, dicts st !! l = Some d ->
       dicts (snd (Auth.url_for_admin_consent self config st)) !! l = Some d
       /\ dicts (snd (Auth.exchange_code_for_token self config st)) !! l = Some d
       /\ dicts (snd (Auth.refresh_access_token self config st)) !! l = Some d).
Proof.
  intros Hc Hl. split; [|split].
  - rewrite (url_for_oauth2_run self cl config c st Hc Hl). simpl snd.
    exists (snd (query_step c)).
    split; [now apply holding_lookup with (d0 := c)|].
    split; [apply query_step_response_type|].
    intros a ss Ha Hs.
    destruct (query_step_ok c a ss Ha Hs) as (q & Hstep & _ & Hat & Hsc & _).
    rewrite Hstep. simpl. split; [exact Hat | exact Hsc].
  - rewrite (url_for_oauth2_pkce_run self cl config c st Hc Hl). cbv zeta.
    set (st1 := Store.with_uuids (S (uuids st)) st).
    assert (Hl1 : dicts st1 !! config = Some c) by exact Hl.
    destruct (fst (query_step c)) as [done_|e] eqn:Hfst.
    + eexists. split; [simpl snd; now apply holding_lookup with (d0 := c)|].
      split.
      * rewrite !get_set_ne by discriminate. apply query_step_response_type.
      * intros a ss Ha Hs.
        destruct (query_step_ok c a ss Ha Hs) as (q & Hstep & _ & Hat & Hsc & _).
        rewrite Hstep. simpl. rewrite !get_set_ne by discriminate.
        split; [exact Hat | exact Hsc].
    + eexists. split; [simpl snd; now apply holding_lookup with (d0 := c)|].
      split; [apply query_step_response_type|].
      intros a ss Ha Hs.
      destruct (query_step_ok c a ss Ha Hs) as (q & Hstep & _).
      rewrite Hstep in Hfst. discriminate.
  - intros l d Hd. split; [|split].
    + now apply url_for_admin_consent_keeps.
    + now apply (token_request_keeps "authorization_code").
    + now apply (token_request_keeps "refresh_token").
Qed.

Lemma config_aliasing_witness :
  (exists q,
     dicts (snd (Auth.url_for_oauth2 (E := example_env) (mkResource 0%nat) 0%nat
                   example_state)) !! 0%nat = Some q
     /\ Dict.get "response_type" q = Some (VStr "code")
     /\ Dict.get "access_type" q = Some (VStr "online")
     /\ Dict.get "scopes" q = Some (VStr "calendar email"))
  /\ dicts (snd (Auth.exchange_code_for_token (E := example_env) (mkResource 0%nat) 0%nat
                  example_state)) !! 0%nat = Some example_config.
Proof.
  destruct (config_aliasing (E := example_env) (mkResource 0%nat) example_client 0%nat
              example_config example_state eq_refl eq_refl)
    as ((q & Hq & Hrt & Hrest) & _ & Hkeep).
  split.
  - exists q. split; [exact Hq|]. split; [exact Hrt|].
    exact (Hrest VNone ["calendar"; "email"] eq_refl eq_refl).
  - destruct (Hkeep 0%nat example_config eq_refl) as (_ & Hx & _). exact Hx.
Defined.

(** ** Calendars *)

(** For every identifier, [Calendars.list] sends exactly one request: a GET
    to /v3/grants/{identifier}/calendars on the client's server, through
    the client's session. (The base class's [list] is the one modelled from
    the spec.) *)
Theorem calendars_list_path {E : Env} (self : Resource) (cl : HttpClientObj)
    (identifier : string) (st : state) :
  clients st !! _http_client self = Some cl ->
  exists x,
    wire (snd (Calendars.list self identifier st)) = wire st ++ [(session cl, x)]
    /\ sent_method x = VStr "GET"
    /\ sent_url x = VStr (api_server cl +:+ "/v3/grants/" +:+ identifier +:+ "/calendars").
Proof.
  intros Hc.
  destruct (execute_run (_http_client self) cl "GET"
              ("/v3/grants/" +:+ identifier +:+ "/calendars") None None None VNone st
              Hc eq_refl)
    as (x & Hm & _ & Hu & _ & Hrun).
  exists x. split; [|split; [exact Hm | exact Hu]].
  unfold Calendars.list, ListableApiResource.list.
  unfold bind at 1. rewrite Hrun.
  destruct (session_request (wire st) (session cl) x) as [response|e]; [|reflexivity].
  unfold bind, lift.
  destruct (response_json response) as [[| | | | |resp]|e]; reflexivity.
Qed.

Lemma calendars_list_path_witness :
  exists x,
    wire (snd (Calendars.list (E := example_env) (mkResource 0%nat) "grant-1" example_state))
    = [(0%nat, x)]
    /\ sent_method x = VStr "GET"
    /\ sent_url x = VStr "https://api.nylas.com/v3/grants/grant-1/calendars".
Proof.
  destruct (calendars_list_path (E := example_env) (mkResource 0%nat) example_client
              "grant-1" example_state eq_refl)
    as (x & Hw & Hm & Hu).
  exists x. split; [exact Hw|]. split; [exact Hm | exact Hu].
Defined.

Lemma url_auth_builder_path_witness :
  exists u,
    Auth._url_auth_builder (E := example_env) (mkResource 0%nat) 0%nat example_state
    = (Ok u, example_state)
    /\ u = "https://api.nylas.com/v3/connect/auth?client_id=abc&access_type=None&scopes=%5B%27calendar%27%2C+%27email%27%5D&credentialId=cred".
Proof.
  destruct (url_auth_builder_path (E := example_env) (mkResource 0%nat) example_client
              0%nat example_config example_state eq_refl eq_refl)
    as (u & Hrun & Hu).
  exists u. split; [exact Hrun|]. rewrite Hu. vm_compute. reflexivity.
Defined.

(** * More of the code *)

(** ** HttpClient: the verbs *)

Section Verbs.
Context {E : Env}.

(** The request [_execute] sends, in full. *)
Lemma execute_sends (self : loc) (c : HttpClientObj) (method path : string)
    (headers query_params : option dict) (request_body : option loc)
    (json : pyval) (st : state) :
  clients st !! self = Some c ->
  json_of_body request_body st = Some json ->
  let x := mkSent (VStr method) (VStr (request_url c path query_params))
             (VDict (Dict.merge (default_headers c) (default [] headers))) json in
  HttpClient._execute self method path (Given headers) query_params request_body st
  = (session_request (wire st) (session c) x,
     Store.with_wire (wire st ++ [(session c, x)]) st).
Proof.
  intros Hc Hjson.
  destruct (execute_run self c method path headers query_params request_body json st Hc Hjson)
    as ([m u h j] & Hm & Hj & Hu & Hh & Hrun).
  simpl in Hm, Hj, Hu, Hh. subst m j u h. exact Hrun.
Qed.

(** A body that is no dict object stops the call before anything is sent. *)
Lemma execute_dangling_body (self : loc) (c : HttpClientObj) (method path : string)
    (headers query_params : option dict) (l : loc) (st : state) :
  clients st !! self = Some c ->
  dicts st !! l = None ->
  HttpClient._execute self method path (Given headers) query_params (Some l) st
  = (Raise Dangling, st).
Proof.
  intros Hc Hl. unfold HttpClient._execute, bind.
  rewrite (build_request_run self c method path headers query_params st Hc).
  unfold Store.read_client. rewrite Hc. simpl.
  unfold bind, Store.read_dict. now rewrite Hl.
Qed.

Lemma execute_dangling_self (self : loc) (method path : string)
    (headers : supplied (option dict)) (query_params : option dict)
    (request_body : option loc) (st : state) :
  clients st !! self = None ->
  exists e,
    HttpClient._execute self method path headers query_params request_body st
    = (Raise e, st).
Proof.
  intros Hc. destruct headers as [headers|]; [|eexists; reflexivity].
  unfold HttpClient._execute, HttpClient._build_request, bind, Store.read_client.
  rewrite Hc. eexists; reflexivity.
Qed.

End Verbs.

(** Each verb method sends exactly one request through the client's
    session: it carries the method's own verb, the URL that
    [_build_request] makes of path and query_params, the default headers
    merged with the caller's, and as JSON body the contents of request_body
    for post, put and patch, and None for get and delete. *)
Theorem verbs_send {E : Env} (self : loc) (c : HttpClientObj) (path : string)
    (headers query_params : option dict) (request_body : option loc)
    (json : pyval) (st : state) :
  clients st !! self = Some c ->
  json_of_body request_body st = Some json ->
  let sent verb body :=
    mkSent (VStr verb) (VStr (request_url c path query_params))
      (VDict (Dict.merge (default_headers c) (default [] headers))) body in
  let sends (m : M Response) (x : Sent) :=
    m st = (session_request (wire st) (session c) x,
            Store.with_wire (wire st ++ [(session c, x)]) st) in
  sends (HttpClient.get self path headers query_params) (sent "GET" VNone)
  /\ sends (HttpClient.post self path headers query_params request_body) (sent "POST" json)
  /\ sends (HttpClient.put self path headers query_params request_body) (sent "PUT" json)
  /\ sends (HttpClient.patch self path headers query_params request_body)
       (sent "PATCH" json)
  /\ sends (HttpClient.delete self path headers query_params) (sent "DELETE" VNone).
Proof.
  intros Hc Hjson. cbv zeta.
  unfold HttpClient.get, HttpClient.post, HttpClient.put, HttpClient.patch,
    HttpClient.delete.
  repeat split.
  - apply (execute_sends self c "GET" path headers query_params None VNone st Hc eq_refl).
  - apply (execute_sends self c "POST" path headers query_params request_body json st Hc Hjson).
  - apply (execute_sends self c "PUT" path headers query_params request_body json st Hc Hjson).
  - apply (execute_sends self c "PATCH" path headers query_params request_body json st Hc Hjson).
  - apply (execute_sends self c "DELETE" path headers query_params None VNone st Hc eq_refl).
Qed.

Lemma verbs_send_witness :
  exists x,
    wire (snd (HttpClient.patch (E := example_env) 0%nat "/v3/grants/g/calendars/c"
                 None (Some [("notify", VBool true)]) (Some 0%nat) example_state))
    = [(0%nat, x)]
    /\ sent_method x = VStr "PATCH"
    /\ sent_url x = VStr "https://api.nylas.com/v3/grants/g/calendars/c?notify=True"
    /\ sent_json x = VDict example_config.
Proof.
  destruct (verbs_send (E := example_env) 0%nat example_client "/v3/grants/g/calendars/c"
              None (Some [("notify", VBool true)]) (Some 0%nat) (VDict example_config)
              example_state eq_refl eq_refl)
    as (_ & _ & _ & Hpatch & _).
  eexists. rewrite Hpatch. simpl. repeat split; reflexivity.
Defined.

(** ** HttpClient: what the headers always hold *)

(** Whatever extra_headers holds, the headers of a request hold the four
    default keys and every key of extra_headers, and no other key. *)
Theorem build_headers_keys {E : Env} (self : loc) (c : HttpClientObj)
    (extra_headers : option dict) (st : state) :
  clients st !! self = Some c ->
  exists headers,
    HttpClient._build_headers self extra_headers st = (Ok headers, st)
    /\ Dict.mem "X-Nylas-API-Wrapper" headers = true
    /\ Dict.mem "User-Agent" headers = true
    /\ Dict.mem "Content-type" headers = true
    /\ Dict.mem "Authorization" headers = true
    /\ forall k,
         Dict.mem k headers
         = Dict.mem k (default_headers c) || Dict.mem k (default [] extra_headers).
Proof.
  intros Hc. rewrite (build_headers_run self c extra_headers st Hc).
  eexists. split; [reflexivity|].
  assert (Hdefault : forall k,
            In k ["X-Nylas-API-Wrapper"; "User-Agent"; "Content-type"; "Authorization"] ->
            Dict.mem k (default_headers c) = true).
  { intros k Hk. unfold default_headers.
    destruct version_info as [[[[major minor] revision] level] serial].
    simpl in Hk. destruct Hk as [<-|[<-|[<-|[<-|[]]]]]; reflexivity. }
  repeat split; try (rewrite mem_merge, Hdefault; [reflexivity | simpl; tauto]).
  intros k. apply mem_merge.
Qed.

Lemma build_headers_keys_witness :
  exists headers,
    HttpClient._build_headers (E := example_env) 0%nat
      (Some [("Authorization", VStr "Basic x")]) example_state
    = (Ok headers, example_state)
    /\ Dict.mem "User-Agent" headers = true
    /\ Dict.mem "Authorization" headers = true
    /\ Dict.mem "Accept" headers = false.
Proof.
  destruct (build_headers_keys (E := example_env) 0%nat example_client
              (Some [("Authorization", VStr "Basic x")]) example_state eq_refl)
    as (headers & Hrun & _ & Hua & _ & Hauth & Hkeys).
  exists headers. split; [exact Hrun|]. split; [exact Hua|]. split; [exact Hauth|].
  rewrite Hkeys. reflexivity.
Defined.

(** ** HttpClient: the timeout and the sessions *)

Section Timeout.
Context {E : Env}.

Lemma default_headers_timeout (seconds : Z) (c : HttpClientObj) :
  default_headers (with_timeout seconds c) = default_headers c.
Proof. reflexivity. Qed.

Lemma request_url_timeout (seconds : Z) (c : HttpClientObj) (path : string)
    (query_params : option dict) :
  request_url (with_timeout seconds c) path query_params = request_url c path query_params.
Proof. reflexivity. Qed.

End Timeout.

(** The timeout a client was constructed with has no part in a request:
    with any other timeout in its place, [_execute] hands the same request
    to the same session and returns the same outcome. *)
Theorem timeout_is_not_used {E : Env} (self : loc) (c : HttpClientObj) (seconds : Z)
    (method path : string) (headers : supplied (option dict))
    (query_params : option dict) (request_body : option loc) (st : state) :
  clients st !! self = Some c ->
  let st' := Store.with_clients (<[self := with_timeout seconds c]> (clients st)) st in
  fst (HttpClient._execute self method path headers query_params request_body st')
  = fst (HttpClient._execute self method path headers query_params request_body st)
  /\ wire (snd (HttpClient._execute self method path headers query_params request_body st'))
     = wire (snd (HttpClient._execute self method path headers query_params request_body st)).
Proof.
  intros Hc st'.
  assert (Hc' : clients st' !! self = Some (with_timeout seconds c)).
  { unfold st'. simpl. apply list_lookup_insert_eq. now apply lookup_lt_Some in Hc. }
  destruct headers as [headers|]; [|split; reflexivity].
  destruct (json_of_body request_body st) as [json|] eqn:Hjson.
  - assert (Hjson' : json_of_body request_body st' = Some json) by exact Hjson.
    rewrite (execute_sends self _ method path headers query_params request_body json st'
               Hc' Hjson').
    rewrite (execute_sends self _ method path headers query_params request_body json st
               Hc Hjson).
    cbv zeta. rewrite default_headers_timeout, request_url_timeout.
    split; reflexivity.
  - destruct request_body as [l|]; [|discriminate]. simpl in Hjson.
    assert (Hl : dicts st !! l = None) by (destruct (dicts st !! l); [discriminate | reflexivity]).
    rewrite (execute_dangling_body self _ method path headers query_params l st' Hc' Hl).
    rewrite (execute_dangling_body self _ method path headers query_params l st Hc Hl).
    split; reflexivity.
Qed.

Lemma timeout_is_not_used_witness :
  wire (snd (HttpClient.get (E := example_env) 0%nat "/v3/grants" None None
               (mkState [example_config] [with_timeout 0 example_client] 1%nat [] 0%nat)))
  = wire (snd (HttpClient.get (E := example_env) 0%nat "/v3/grants" None None
                 example_state)).
Proof.
  destruct (timeout_is_not_used (E := example_env) 0%nat example_client 0
              "GET" "/v3/grants" (Given None) None None example_state eq_refl)
    as (_ & Hwire).
  exact Hwire.
Defined.

(** Every client is constructed with a session of its own: a client made
    after another one, whatever the first did in between, is a different
    object with a different session, and the first keeps its own. *)
Theorem clients_have_own_sessions {E : Env} (server1 key1 server2 key2 : string)
    (seconds1 seconds2 : Z) (ops : list call) (st0 : state) :
  exists self1 st1 self2 st2 c1 c2,
    HttpClient.__init__ server1 key1 seconds1 st0 = (Ok self1, st1)
    /\ HttpClient.__init__ server2 key2 seconds2 (run_calls self1 ops st1) = (Ok self2, st2)
    /\ clients st2 !! self1 = Some c1
    /\ clients st2 !! self2 = Some c2
    /\ self1 <> self2
    /\ session c1 <> session c2
    /\ c1 = mkHttpClient server1 key1 seconds1 (session c1)
    /\ c2 = mkHttpClient server2 key2 seconds2 (session c2).
Proof.
  set (c1 := mkHttpClient server1 key1 seconds1 (sessions st0)).
  set (st1 := Store.with_clients (clients st0 ++ [c1])
                (Store.with_sessions (S (sessions st0)) st0)).
  assert (H1 : clients st1 !! length (clients st0) = Some c1).
  { unfold st1. simpl. now apply list_lookup_middle. }
  destruct (run_calls_frame (length (clients st0)) c1 ops st1 H1)
    as (Hcl & _ & Hs & _).
  set (st1' := run_calls (length (clients st0)) ops st1) in *.
  set (c2 := mkHttpClient server2 key2 seconds2 (sessions st1')).
  exists (length (clients st0)), st1, (length (clients st1')),
    (Store.with_clients (clients st1' ++ [c2])
       (Store.with_sessions (S (sessions st1')) st1')), c1, c2.
  assert (Hlen : length (clients st1') = S (length (clients st0))).
  { rewrite Hcl. unfold st1. simpl. rewrite length_app. simpl. lia. }
  split; [reflexivity|]. split; [reflexivity|]. split.
  { simpl. rewrite lookup_app_l by lia. now rewrite Hcl. }
  split; [simpl; now apply list_lookup_middle|].
  split; [lia|]. split; [|split; reflexivity].
  simpl. rewrite Hs. unfold st1. simpl. lia.
Qed.

(** ** The wrappers that call [_execute] by keyword *)

(** [revoke], [detect_provider], [id_token_info], [validate_access_token]
    and [Calendars.get_availability] all call [_execute] by keyword
    without [headers]: for every argument and in every store each of them
    raises the TypeError of the missing argument, returns nothing
    ([revoke] never returns True), sends nothing and leaves the store as it
    was. *)
Theorem keyword_callers_raise {E : Env} {Mo : Models} (self : Resource)
    (token id_token access_token identifier : string) (params : dict)
    (request_body : loc) (st : state) :
  Auth.revoke self token st = (Raise missing_headers, st)
  /\ Auth.detect_provider self params st = (Raise missing_headers, st)
  /\ Auth.id_token_info self id_token st = (Raise missing_headers, st)
  /\ Auth.validate_access_token self access_token st = (Raise missing_headers, st)
  /\ Calendars.get_availability self identifier request_body st
     = (Raise missing_headers, st)
  /\ (forall b : bool, fst (Auth.revoke self token st) <> Ok b).
Proof.
  repeat split. intros b Hb. discriminate Hb.
Qed.

(** ** The token requests *)

(** Which keys a dict has after an assignment does not depend on the value. *)
Lemma keys_set (k : string) (v v' : pyval) (d : dict) :
  Dict.keys (Dict.set k v d) = Dict.keys (Dict.set k v' d).
Proof.
  induction d as [|[k0 v0] d IH]; [reflexivity|].
  unfold Dict.keys in *. cbn [Dict.set].
  destruct (String.eqb k k0); cbn [map fst]; [reflexivity | now rewrite IH].
Qed.

(** [exchange_code_for_token] and [refresh_access_token] make one new dict
    each, a copy of the request in which 'grant_type' is
    'authorization_code' and 'refresh_token' respectively (overwriting a
    'grant_type' of the request), with every other key as the request has
    it; the two bodies differ in nothing else. *)
Theorem token_request_bodies {E : Env} (self : Resource) (request : loc) (r : dict)
    (st : state) :
  dicts st !! request = Some r ->
  exists code_body refresh_body,
    dicts (snd (Auth.exchange_code_for_token self request st)) = dicts st ++ [code_body]
    /\ dicts (snd (Auth.refresh_access_token self request st)) = dicts st ++ [refresh_body]
    /\ Dict.get "grant_type" code_body = Some (VStr "authorization_code")
    /\ Dict.get "grant_type" refresh_body = Some (VStr "refresh_token")
    /\ (forall k, k <> "grant_type" ->
          Dict.get k code_body = Dict.get k r /\ Dict.get k refresh_body = Dict.get k r)
    /\ Dict.keys code_body = Dict.keys refresh_body.
Proof.
  intros Hr.
  exists (Dict.set "grant_type" (VStr "authorization_code") r),
    (Dict.set "grant_type" (VStr "refresh_token") r).
  assert (Hrun : forall g,
            dicts (snd ((r0 <- Store.read_dict request ;;
                         request_body <- Store.new_dict r0 ;;
                         Store.setitem request_body "grant_type" (VStr g) ;;
                         Auth._get_token self request_body) st))
            = dicts st ++ [Dict.set "grant_type" (VStr g) r]).
  { intros g. unfold bind, Store.read_dict, Store.new_dict, Store.setitem.
    rewrite Hr. simpl. rewrite list_lookup_middle by reflexivity. simpl.
    replace (length (dicts st)) with (length (dicts st) + 0)%nat by lia.
    rewrite insert_app_r. reflexivity. }
  split; [apply (Hrun "authorization_code")|].
  split; [apply (Hrun "refresh_token")|].
  split; [apply get_set_eq|]. split; [apply get_set_eq|]. split.
  - intros k Hk. rewrite !get_set_ne by congruence. split; reflexivity.
  - apply keys_set.
Qed.

Lemma token_request_bodies_witness :
  exists code_body,
    dicts (snd (Auth.exchange_code_for_token (E := example_env) (mkResource 0%nat) 0%nat
                  (mkState [[("code", VStr "c"); ("grant_type", VStr "mine")]]
                     [example_client] 1%nat [] 0%nat)))
    = [[("code", VStr "c"); ("grant_type", VStr "mine")]; code_body]
    /\ Dict.get "grant_type" code_body = Some (VStr "authorization_code")
    /\ Dict.get "code" code_body = Some (VStr "c").
Proof.
  destruct (token_request_bodies (E := example_env) (mkResource 0%nat) 0%nat
              [("code", VStr "c"); ("grant_type", VStr "mine")]
              (mkState [[("code", VStr "c"); ("grant_type", VStr "mine")]]
                 [example_client] 1%nat [] 0%nat) eq_refl)
    as (code_body & refresh_body & Hcode & _ & Hgrant & _ & Hother & _).
  exists code_body. split; [exact Hcode|]. split; [exact Hgrant|].
  destruct (Hother "code" ltac:(discriminate)) as [Hk _]. rewrite Hk. reflexivity.
Defined.

(** ** ListResponse: what can go wrong, and what cannot *)

Section ListResponseErrors.
Context {T : Type} (generic_type : pyval -> result T).

(** The loop stops at the first item that is refused. *)
Lemma convert_stops (good rest : list pyval) (bad : pyval) (ys converted : list T)
    (e : exn) :
  Forall2 (fun item y => generic_type item = Ok y) good ys ->
  generic_type bad = Raise e ->
  ListResponse.convert generic_type (good ++ bad :: rest) converted = Raise e.
Proof.
  intros Hall Hbad. revert converted.
  induction Hall as [|item y good ys Hy _ IH]; intros converted; simpl.
  - now rewrite Hbad.
  - rewrite Hy. apply IH.
Qed.

End ListResponseErrors.

(** [ListResponse.from_dict] raises KeyError('data') when 'data' is
    missing, before it looks at anything else; the TypeError of the loop
    when 'data' holds something that cannot be iterated; the exception of
    the first item that generic_type.from_dict refuses, whatever comes after
    it and whether or not 'request_id' is there; and KeyError('request_id')
    when all items were converted and 'request_id' is missing. *)
Theorem from_dict_errors {T : Type} (resp : dict) (generic_type : pyval -> result T) :
  (Dict.get "data" resp = None ->
     ListResponse.from_dict resp generic_type = Raise (KeyError "data"))
  /\ (forall d e,
        Dict.get "data" resp = Some d -> iterate d = Raise e ->
        ListResponse.from_dict resp generic_type = Raise e)
  /\ (forall good bad rest ys e,
        Dict.get "data" resp = Some (VList (good ++ bad :: rest)) ->
        Forall2 (fun item y => generic_type item = Ok y) good ys ->
        generic_type bad = Raise e ->
        ListResponse.from_dict resp generic_type = Raise e)
  /\ (forall items ys,
        Dict.get "data" resp = Some (VList items) ->
        Forall2 (fun item y => generic_type item = Ok y) items ys ->
        Dict.get "request_id" resp = None ->
        ListResponse.from_dict resp generic_type = Raise (KeyError "request_id")).
Proof.
  unfold ListResponse.from_dict, Dict.getitem.
  split; [intros ->; reflexivity|].
  split; [intros d e -> ->; reflexivity|].
  split.
  - intros good bad rest ys e -> Hall Hbad. simpl.
    now rewrite (convert_stops generic_type good rest bad ys [] e Hall Hbad).
  - intros items ys -> Hall ->. simpl.
    now rewrite (convert_append generic_type items ys [] Hall).
Qed.

Lemma from_dict_errors_witness :
  ListResponse.from_dict (T := Z) [("request_id", VStr "r1")] (fun _ => Ok 0)
  = Raise (KeyError "data")
  /\ ListResponse.from_dict (T := Z)
       [("data", VList [VInt 1; VStr "x"; VInt 3])]
       (fun v => match v with VInt z => Ok z | _ => Raise (TypeError "int") end)
     = Raise (TypeError "int")
  /\ ListResponse.from_dict (T := Z) [("data", VList [VInt 1])]
       (fun v => match v with VInt z => Ok z | _ => Raise (TypeError "int") end)
     = Raise (KeyError "request_id").
Proof.
  split; [|split].
  - apply (from_dict_errors (T := Z) [("request_id", VStr "r1")] (fun _ => Ok 0)).
    reflexivity.
  - destruct (from_dict_errors (T := Z) [("data", VList [VInt 1; VStr "x"; VInt 3])]
                (fun v => match v with VInt z => Ok z | _ => Raise (TypeError "int") end))
      as (_ & _ & Hstop & _).
    apply (Hstop [VInt 1] (VStr "x") [VInt 3] [1] (TypeError "int")); try reflexivity.
    repeat constructor.
  - destruct (from_dict_errors (T := Z) [("data", VList [VInt 1])]
                (fun v => match v with VInt z => Ok z | _ => Raise (TypeError "int") end))
      as (_ & _ & _ & Hrid).
    apply (Hrid [VInt 1] [1]); try reflexivity. repeat constructor.
Defined.

(** When [ListResponse.from_dict] returns, nothing was dropped, added or
    reordered: 'data' and 'request_id' were in the response, the data of the
    result is the conversion of every item that iterating resp['data'] gives,
    in order, its request_id is resp['request_id'] and its next_cursor is
    resp.get('next_cursor'). *)
Theorem from_dict_returns {T : Type} (resp : dict) (generic_type : pyval -> result T)
    (r : ListResponse.t T) :
  ListResponse.from_dict resp generic_type = Ok r ->
  exists d items,
    Dict.get "data" resp = Some d
    /\ iterate d = Ok items
    /\ Forall2 (fun item y => generic_type item = Ok y) items (ListResponse.data r)
    /\ length (ListResponse.data r) = length items
    /\ Dict.get "request_id" resp = Some (ListResponse.request_id r)
    /\ ListResponse.next_cursor r = Dict.get_default "next_cursor" VNone resp.
Proof.
  unfold ListResponse.from_dict, Dict.getitem.
  destruct (Dict.get "data" resp) as [d|]; [|discriminate].
  destruct (iterate d) as [items|] eqn:Hit; [|discriminate].
  destruct (ListResponse.convert generic_type items []) as [converted|] eqn:Hconv;
    [|discriminate].
  destruct (Dict.get "request_id" resp) as [rid|]; [|discriminate].
  intros [= <-]. simpl.
  destruct (convert_returns generic_type items [] converted Hconv) as (ys & -> & Hall).
  exists d, items. simpl.
  split; [reflexivity|]. split; [exact Hit|]. split; [exact Hall|].
  split; [symmetry; eapply Forall2_length; exact Hall|].
  split; reflexivity.
Qed.

Lemma from_dict_returns_witness :
  exists d items,
    Dict.get "data" [("data", VList [VInt 7]); ("request_id", VStr "r")] = Some d
    /\ iterate d = Ok items
    /\ Forall2 (fun item y => (fun v : pyval => Ok v) item = Ok y) items [VInt 7].
Proof.
  destruct (from_dict_returns [("data", VList [VInt 7]); ("request_id", VStr "r")]
              (fun v => Ok v) (ListResponse.mk [VInt 7] (VStr "r") VNone) eq_refl)
    as (d & items & Hd & Hit & Hall & _).
  exists d, items. split; [exact Hd|]. split; [exact Hit | exact Hall].
Defined.

(** ** The URL builders work offline *)

Section Offline.
Context {E : Env}.

Lemma build_query_dangling (config : loc) (st : state) :
  dicts st !! config = None ->
  Auth._build_query config st = (Raise Dangling, st).
Proof.
  intros Hl. unfold Auth._build_query.
  unfold bind at 1. unfold Store.setitem at 1. now rewrite Hl.
Qed.

(** However [_build_query] ends, only dicts have changed. *)
Lemma build_query_offline (config : loc) (st : state) :
  offline st (snd (Auth._build_query config st))
  /\ uuids (snd (Auth._build_query config st)) = uuids st.
Proof.
  destruct (dicts st !! config) as [c|] eqn:Hl.
  - rewrite (build_query_run config c st Hl). repeat split.
  - rewrite (build_query_dangling config st Hl). repeat split.
Qed.

Lemma url_for_oauth2_offline (self : Resource) (config : loc) (st : state) :
  offline st (snd (Auth.url_for_oauth2 self config st))
  /\ uuids (snd (Auth.url_for_oauth2 self config st)) = uuids st.
Proof.
  unfold Auth.url_for_oauth2, bind.
  destruct (dicts st !! config) as [c|] eqn:Hl.
  - rewrite (build_query_run config c st Hl).
    destruct (fst (query_step c)); [|repeat split].
    rewrite url_auth_builder_state. repeat split.
  - rewrite (build_query_dangling config st Hl). repeat split.
Qed.

(** The store [url_for_oauth2_pkce] ends in: one uuid drawn, and the dict
    behind [config] possibly rewritten. *)
Lemma url_for_oauth2_pkce_state (self : Resource) (config : loc) (st : state)
    (P : state -> Prop) :
  (forall q, P (holding config q (Store.with_uuids (S (uuids st)) st))) ->
  P (Store.with_uuids (S (uuids st)) st) ->
  P (snd (Auth.url_for_oauth2_pkce self config st)).
Proof.
  intros Hq Hsame.
  unfold Auth.url_for_oauth2_pkce.
  unfold bind at 1. unfold Store.draw_uuid at 1.
  set (st1 := Store.with_uuids (S (uuids st)) st) in *.
  unfold bind at 1.
  destruct (dicts st !! config) as [c|] eqn:Hl.
  - assert (Hl1 : dicts st1 !! config = Some c) by exact Hl.
    rewrite (build_query_with_pkce_run config c _ st1 Hl1).
    destruct (fst (query_step c)); [|apply Hq].
    unfold bind at 1.
    pose proof (url_auth_builder_state self config
                  (holding config
                     (Dict.set "code_challenge_method" (VStr "s256")
                        (Dict.set "code_challenge"
                           (VStr (Auth._hash_pkce_secret (uuid4 (uuids st))))
                           (snd (query_step c)))) st1)) as Hstate.
    destruct (Auth._url_auth_builder self config _) as [[u|e] st2];
      simpl in Hstate; subst st2; apply Hq.
  - assert (Hl1 : dicts st1 !! config = None) by exact Hl.
    unfold Auth._build_query_with_pkce. unfold bind at 1.
    rewrite (build_query_dangling config st1 Hl1). exact Hsame.
Qed.

Lemma url_for_oauth2_pkce_offline (self : Resource) (config : loc) (st : state) :
  offline st (snd (Auth.url_for_oauth2_pkce self config st))
  /\ uuids (snd (Auth.url_for_oauth2_pkce self config st)) = S (uuids st).
Proof.
  split; apply url_for_oauth2_pkce_state; intros; repeat split.
Qed.

(** The store [url_for_admin_consent] ends in: the one it started in, or
    that with one more dict. *)
Lemma url_for_admin_consent_state (self : Resource) (config : loc) (st : state)
    (P : state -> Prop) :
  (forall m q,
     P (holding (length (dicts st)) q (Store.with_dicts (dicts st ++ [m]) st))) ->
  P st ->
  P (snd (Auth.url_for_admin_consent self config st)).
Proof.
  intros Hq Hsame.
  unfold Auth.url_for_admin_consent.
  unfold bind at 1. unfold Store.read_dict at 1.
  destruct (dicts st !! config) as [c|]; [|exact Hsame].
  unfold bind at 1. unfold Store.new_dict at 1.
  set (m := Dict.merge [("provider", VStr "microsoft")] c).
  set (st1 := Store.with_dicts (dicts st ++ [m]) st).
  assert (Hl1 : dicts st1 !! length (dicts st) = Some m).
  { unfold st1. simpl. now apply list_lookup_middle. }
  unfold bind at 1.
  rewrite (build_query_with_admin_consent_run _ m st1 Hl1).
  destruct (fst (query_step m)); cbv zeta; [|apply Hq].
  destruct (Dict.get "credentialId" _) as [v|]; [|apply Hq].
  rewrite url_auth_builder_state. apply Hq.
Qed.

Lemma url_for_admin_consent_offline (self : Resource) (config : loc) (st : state) :
  offline st (snd (Auth.url_for_admin_consent self config st))
  /\ uuids (snd (Auth.url_for_admin_consent self config st)) = uuids st.
Proof.
  split; apply url_for_admin_consent_state; intros; repeat split.
Qed.

End Offline.

(** Building a URL is local work: for every argument and in every store,
    and whether they return or raise, [url_for_oauth2],
    [url_for_oauth2_pkce] and [url_for_admin_consent] send no request and
    make or change no client and no session; [url_for_oauth2_pkce] draws
    exactly one uuid (also when it raises afterwards), the other two draw
    none. *)
Theorem url_builders_send_nothing {E : Env} (self : Resource) (config : loc)
    (st : state) :
  offline st (snd (Auth.url_for_oauth2 self config st))
  /\ offline st (snd (Auth.url_for_oauth2_pkce self config st))
  /\ offline st (snd (Auth.url_for_admin_consent self config st))
  /\ uuids (snd (Auth.url_for_oauth2 self config st)) = uuids st
  /\ uuids (snd (Auth.url_for_oauth2_pkce self config st)) = S (uuids st)
  /\ uuids (snd (Auth.url_for_admin_consent self config st)) = uuids st.
Proof.
  destruct (url_for_oauth2_offline self config st) as [H1 U1].
  destruct (url_for_oauth2_pkce_offline self config st) as [H2 U2].
  destruct (url_for_admin_consent_offline self config st) as [H3 U3].
  repeat split; first [apply H1 | apply H2 | apply H3 | exact U1 | exact U2 | exact U3].
Qed.

(** ** The query, for any value under 'scopes' *)

Section QueryCases.

(** The dict after the first two statements of [_build_query]. *)
Lemma query_step_cases (c : dict) (a s : pyval) :
  Dict.get "access_type" c = Some a ->
  Dict.get "scopes" c = Some s ->
  exists c2,
    Dict.get "response_type" c2 = Some (VStr "code")
    /\ Dict.get "access_type" c2 = Some (if truthy a then a else VStr "online")
    /\ Dict.get "scopes" c2 = Some s
    /\ (forall k, k <> "response_type" -> k <> "access_type" ->
          Dict.get k c2 = Dict.get k c)
    /\ query_step c
       = if truthy s then
           match str_join " " s with
           | Ok joined => (Ok tt, Dict.set "scopes" (VStr joined) c2)
           | Raise e => (Raise e, c2)
           end
         else (Ok tt, c2).
Proof.
  intros Ha Hs. unfold query_step.
  set (c1 := Dict.set "response_type" (VStr "code") c).
  assert (Ha1 : Dict.get "access_type" c1 = Some a).
  { unfold c1. rewrite get_set_ne by discriminate. exact Ha. }
  rewrite Ha1.
  set (c2 := if truthy a then c1 else Dict.set "access_type" (VStr "online") c1).
  assert (Hother : forall k, k <> "response_type" -> k <> "access_type" ->
                     Dict.get k c2 = Dict.get k c).
  { intros k Hk1 Hk2. unfold c2, c1.
    destruct (truthy a); rewrite !get_set_ne by congruence; reflexivity. }
  assert (Hs2 : Dict.get "scopes" c2 = Some s).
  { rewrite Hother by discriminate. exact Hs. }
  exists c2. rewrite Hs2. repeat split; try assumption.
  - unfold c2, c1. destruct (truthy a); [|rewrite get_set_ne by discriminate];
      apply get_set_eq.
  - unfold c2. destruct (truthy a); [exact Ha1 | apply get_set_eq].
Qed.

(** A falsy 'scopes' stays what it is. *)
Lemma query_step_falsy (c : dict) (a s : pyval) :
  Dict.get "access_type" c = Some a ->
  Dict.get "scopes" c = Some s ->
  truthy s = false ->
  exists q,
    query_step c = (Ok tt, q)
    /\ Dict.get "response_type" q = Some (VStr "code")
    /\ Dict.get "access_type" q = Some (if truthy a then a else VStr "online")
    /\ Dict.get "scopes" q = Some s.
Proof.
  intros Ha Hs Hfalsy.
  destruct (query_step_cases c a s Ha Hs) as (c2 & Hrt & Hat & Hsc & _ & Hstep).
  rewrite Hfalsy in Hstep. exists c2. auto.
Qed.

(** A non-empty str under 'scopes' is joined character by character. *)
Lemma query_step_str (c : dict) (a : pyval) (j : string) :
  Dict.get "access_type" c = Some a ->
  Dict.get "scopes" c = Some (VStr j) ->
  j <> "" ->
  exists q,
    query_step c = (Ok tt, q)
    /\ Dict.get "response_type" q = Some (VStr "code")
    /\ Dict.get "access_type" q = Some (if truthy a then a else VStr "online")
    /\ Dict.get "scopes" q = Some (VStr (join " " (chars j)))
    /\ (forall k, k <> "response_type" -> k <> "access_type" -> k <> "scopes" ->
          Dict.get k q = Dict.get k c).
Proof.
  intros Ha Hs Hj.
  destruct (query_step_cases c a (VStr j) Ha Hs) as (c2 & Hrt & Hat & Hsc & Hother & Hstep).
  assert (Htruthy : truthy (VStr j) = true).
  { simpl. apply String.eqb_neq in Hj. now rewrite Hj. }
  assert (Hjoin : str_join " " (VStr j) = Ok (join " " (chars j))).
  { unfold str_join. simpl. now rewrite expect_strs_strs. }
  rewrite Htruthy, Hjoin in Hstep.
  eexists. split; [exact Hstep|].
  split; [rewrite get_set_ne by discriminate; exact Hrt|].
  split; [rewrite get_set_ne by discriminate; exact Hat|].
  split; [apply get_set_eq|].
  intros k Hk1 Hk2 Hk3. rewrite get_set_ne by congruence. now apply Hother.
Qed.

End QueryCases.

Section Lengths.

Lemma length_append (a b : string) :
  String.length (a +:+ b) = (String.length a + String.length b)%nat.
Proof.
  induction a as [|x a IH]; [reflexivity|].
  change (S (String.length (a +:+ b)) = S (String.length a + String.length b)).
  now rewrite IH.
Qed.

Lemma length_join (sep : string) (l : list string) :
  String.length (join sep l)
  = (total_length l + String.length sep * (length l - 1))%nat.
Proof.
  induction l as [|p [|p' l] IH]; [simpl; lia | simpl; lia |].
  change (join sep (p :: p' :: l)) with (p +:+ sep +:+ join sep (p' :: l)).
  rewrite !length_append, IH. simpl. lia.
Qed.

Lemma total_length_chars_aux (cur s : string) :
  total_length (chars_aux cur s) = (String.length cur + String.length s)%nat.
Proof.
  revert cur. induction s as [|x s IH]; intros cur; simpl.
  - lia.
  - destruct (is_continuation x).
    + rewrite IH, length_append. simpl. lia.
    + simpl. rewrite IH. simpl. lia.
Qed.

(** The characters of a str are all of it. *)
Lemma total_length_chars (s : string) : total_length (chars s) = String.length s.
Proof.
  destruct s as [|x s]; [reflexivity|].
  simpl. rewrite total_length_chars_aux. reflexivity.
Qed.

End Lengths.

(** ** Using one config twice *)

(** [_build_query] is not idempotent on a config it has rewritten: the
    first call leaves the joined scopes, a str, under 'scopes'; a second
    call on the same dict joins that str again, character by character, so
    that one space is put between every two characters. 'access_type' and
    'response_type' are as the first call left them. *)
Theorem build_query_twice (config : loc) (c : dict) (a : pyval) (ss : list string)
    (st : state) :
  dicts st !! config = Some c ->
  Dict.get "access_type" c = Some a ->
  Dict.get "scopes" c = Some (VList (map VStr ss)) ->
  join " " ss <> "" ->
  exists q1 q2,
    Auth._build_query config st = (Ok config, holding config q1 st)
    /\ Auth._build_query config (holding config q1 st) = (Ok config, holding config q2 st)
    /\ Dict.get "scopes" q1 = Some (VStr (join " " ss))
    /\ Dict.get "scopes" q2 = Some (VStr (join " " (chars (join " " ss))))
    /\ String.length (join " " (chars (join " " ss)))
       = (String.length (join " " ss) + (length (chars (join " " ss)) - 1))%nat
    /\ Dict.get "access_type" q2 = Dict.get "access_type" q1
    /\ Dict.get "response_type" q2 = Some (VStr "code").
Proof.
  intros Hl Ha Hs Hj.
  destruct (query_step_ok c a ss Ha Hs) as (q1 & Hstep1 & _ & Hat1 & Hsc1 & _).
  assert (Hsc1' : Dict.get "scopes" q1 = Some (VStr (join " " ss))).
  { rewrite Hsc1. destruct ss; [now elim Hj | reflexivity]. }
  destruct (query_step_str q1 _ (join " " ss) Hat1 Hsc1' Hj)
    as (q2 & Hstep2 & Hrt2 & Hat2 & Hsc2 & _).
  exists q1, q2.
  rewrite (build_query_run config c st Hl), Hstep1.
  rewrite (build_query_holding config q1 c st Hl), Hstep2. simpl.
  split; [reflexivity|]. split; [reflexivity|]. split; [exact Hsc1'|].
  split; [exact Hsc2|]. split.
  - rewrite length_join, total_length_chars. simpl. lia.
  - split; [|exact Hrt2]. rewrite Hat2, Hat1.
    destruct (truthy a) eqn:Htruthy; [now rewrite Htruthy | reflexivity].
Qed.

Lemma build_query_twice_witness :
  exists q1 q2,
    Auth._build_query 0%nat example_state = (Ok 0%nat, holding 0%nat q1 example_state)
    /\ Auth._build_query 0%nat (holding 0%nat q1 example_state)
       = (Ok 0%nat, holding 0%nat q2 example_state)
    /\ Dict.get "scopes" q1 = Some (VStr "calendar email")
    /\ Dict.get "scopes" q2 = Some (VStr "c a l e n d a r   e m a i l").
Proof.
  destruct (build_query_twice 0%nat example_config VNone ["calendar"; "email"]
              example_state eq_refl eq_refl eq_refl ltac:(discriminate))
    as (q1 & q2 & Hrun1 & Hrun2 & Hsc1 & Hsc2 & _).
  exists q1, q2. split; [exact Hrun1|]. split; [exact Hrun2|].
  split; [exact Hsc1 | exact Hsc2].
Defined.

(** ** Scopes that are empty *)

(** A falsy value under 'scopes' (an empty list, None, an empty str) is not
    joined: [url_for_oauth2] leaves it in the config as it is and the URL
    carries its [str()]: an empty list goes out as [scopes=%5B%5D], None
    as [scopes=None]. *)
Theorem falsy_scopes_are_kept {E : Env} (self : Resource) (cl : HttpClientObj)
    (config : loc) (c : dict) (a s : pyval) (st : state) :
  clients st !! _http_client self = Some cl ->
  dicts st !! config = Some c ->
  Dict.get "access_type" c = Some a ->
  Dict.get "scopes" c = Some s ->
  truthy s = false ->
  exists q pieces,
    Auth.url_for_oauth2 self config st
    = (Ok (api_server cl +:+ "/v3/connect/auth?" +:+ urlencode q), holding config q st)
    /\ Dict.get "scopes" q = Some s
    /\ urlencode q = join "&" pieces
    /\ In ("scopes=" +:+ Urllib.quote_plus (py_str s)) pieces
    /\ (s = VList [] -> In "scopes=%5B%5D" pieces)
    /\ (s = VNone -> In "scopes=None" pieces).
Proof.
  intros Hc Hl Ha Hs Hfalsy.
  destruct (query_step_falsy c a s Ha Hs Hfalsy) as (q & Hstep & _ & _ & Hsc).
  destruct (urlencode_item "scopes" s q Hsc) as (pieces & Henc & Hin).
  exists q, pieces.
  rewrite (url_for_oauth2_run self cl config c st Hc Hl), Hstep. simpl fst. simpl snd.
  split; [reflexivity|]. split; [exact Hsc|]. split; [exact Henc|].
  split; [exact Hin|]. split; intros ->; exact Hin.
Qed.

Lemma falsy_scopes_are_kept_witness :
  exists q pieces,
    Auth.url_for_oauth2 (E := example_env) (mkResource 0%nat) 0%nat
      (mkState [[("access_type", VStr "offline"); ("scopes", VList [])]]
         [example_client] 1%nat [] 0%nat)
    = (Ok ("https://api.nylas.com/v3/connect/auth?" +:+ join "&" pieces),
       holding 0%nat q
         (mkState [[("access_type", VStr "offline"); ("scopes", VList [])]]
            [example_client] 1%nat [] 0%nat))
    /\ Dict.get "scopes" q = Some (VList [])
    /\ In "scopes=%5B%5D" pieces.
Proof.
  destruct (falsy_scopes_are_kept (E := example_env) (mkResource 0%nat) example_client
              0%nat [("access_type", VStr "offline"); ("scopes", VList [])]
              (VStr "offline") (VList [])
              (mkState [[("access_type", VStr "offline"); ("scopes", VList [])]]
                 [example_client] 1%nat [] 0%nat)
              eq_refl eq_refl eq_refl eq_refl eq_refl)
    as (q & pieces & Hrun & Hsc & Henc & _ & Hempty & _).
  exists q, pieces. split; [|split; [exact Hsc | exact (Hempty eq_refl)]].
  rewrite Hrun, Henc. reflexivity.
Defined.

(** ** The admin consent query *)

(** For a config with 'access_type', a list of str under 'scopes' and
    'credentialId', [url_for_admin_consent] encodes a query in which
    'response_type' is 'adminconsent' (not 'code'), 'credential_id' is the
    config's 'credentialId' (which stays in the query as well), and
    'provider' is the config's own provider when it has one and 'microsoft'
    otherwise. *)
Theorem admin_consent_query {E : Env} (self : Resource) (cl : HttpClientObj)
    (config : loc) (c : dict) (a v : pyval) (ss : list string) (st : state) :
  clients st !! _http_client self = Some cl ->
  dicts st !! config = Some c ->
  Dict.wf c ->
  Dict.get "access_type" c = Some a ->
  Dict.get "scopes" c = Some (VList (map VStr ss)) ->
  Dict.get "credentialId" c = Some v ->
  exists q,
    fst (Auth.url_for_admin_consent self config st)
    = Ok (api_server cl +:+ "/v3/connect/auth?" +:+ urlencode q)
    /\ dicts (snd (Auth.url_for_admin_consent self config st)) = dicts st ++ [q]
    /\ Dict.get "response_type" q = Some (VStr "adminconsent")
    /\ Dict.get "credential_id" q = Some v
    /\ Dict.get "credentialId" q = Some v
    /\ Dict.get "provider" q
       = Some (match Dict.get "provider" c with
               | Some p => p
               | None => VStr "microsoft"
               end).
Proof.
  intros Hc Hl Hwf Ha Hs Hv.
  set (m := Dict.merge [("provider", VStr "microsoft")] c).
  assert (Hm : forall k, k <> "provider" -> Dict.get k m = Dict.get k c).
  { intros k Hk. now apply get_with_provider. }
  assert (Hpm : Dict.get "provider" m
                = Some (match Dict.get "provider" c with
                        | Some p => p
                        | None => VStr "microsoft"
                        end)).
  { unfold m. rewrite get_merge by exact Hwf.
    destruct (Dict.get "provider" c); reflexivity. }
  assert (Ham : Dict.get "access_type" m = Some a) by (rewrite Hm by discriminate; exact Ha).
  assert (Hsm : Dict.get "scopes" m = Some (VList (map VStr ss)))
    by (rewrite Hm by discriminate; exact Hs).
  destruct (query_step_ok m a ss Ham Hsm) as (q0 & Hstep & _ & _ & _ & Hother).
  rewrite (url_for_admin_consent_run self cl config c st Hc Hl).
  cbv zeta. fold m. rewrite Hstep. simpl fst. simpl snd.
  rewrite (get_credential_id m q0 Hother).
  rewrite (Hm "credentialId") by discriminate. rewrite Hv.
  eexists. split; [reflexivity|]. split.
  { simpl. replace (length (dicts st)) with (length (dicts st) + 0)%nat at 1 by lia.
    rewrite insert_app_r. reflexivity. }
  split; [rewrite get_set_ne by discriminate; apply get_set_eq|].
  split; [apply get_set_eq|]. split.
  - rewrite !get_set_ne by discriminate.
    rewrite Hother by discriminate. rewrite Hm by discriminate. exact Hv.
  - rewrite !get_set_ne by discriminate.
    rewrite Hother by discriminate. exact Hpm.
Qed.

Lemma admin_consent_query_witness :
  exists q,
    fst (Auth.url_for_admin_consent (E := example_env) (mkResource 0%nat) 0%nat
           example_state)
    = Ok ("https://api.nylas.com/v3/connect/auth?" +:+ urlencode (E := example_env) q)
    /\ Dict.get "response_type" q = Some (VStr "adminconsent")
    /\ Dict.get "credential_id" q = Some (VStr "cred")
    /\ Dict.get "provider" q = Some (VStr "microsoft").
Proof.
  destruct (admin_consent_query (E := example_env) (mkResource 0%nat) example_client
              0%nat example_config VNone (VStr "cred") ["calendar"; "email"] example_state
              eq_refl eq_refl ltac:(unfold Dict.wf; simpl; compute_done)
              eq_refl eq_refl eq_refl)
    as (q & Hurl & _ & Hrt & Hcid & _ & Hprov).
  exists q. split; [exact Hurl|]. split; [exact Hrt|]. split; [exact Hcid | exact Hprov].
Defined.


(** ** The shape of a PKCE challenge *)

Section Sha256Length.

Lemma length_be_bytes (len : nat) (n : Z) : length (Sha256.be_bytes len n) = len.
Proof. induction len as [|len IH]; simpl; [reflexivity | now rewrite IH]. Qed.

Lemma be_bytes_are_bytes (len : nat) (n : Z) : Forall is_byte (Sha256.be_bytes len n).
Proof.
  induction len as [|len IH]; simpl; constructor; [|exact IH].
  unfold is_byte. change 255 with (Z.ones 8).
  rewrite Z.land_ones by lia. apply Z.mod_pos_bound. lia.
Qed.

Lemma length_round (st : list Z) (kw : Z * Z) :
  length st = 8%nat -> length (Sha256.round st kw) = 8%nat.
Proof.
  intros Hlen.
  do 8 (destruct st as [|? st]; [discriminate|]).
  destruct st; [reflexivity | discriminate].
Qed.

Lemma length_rounds (kws : list (Z * Z)) (st : list Z) :
  length st = 8%nat -> length (fold_left Sha256.round kws st) = 8%nat.
Proof.
  revert st. induction kws as [|kw kws IH]; intros st Hlen; simpl; [exact Hlen|].
  apply IH. now apply length_round.
Qed.

Lemma length_compress (h block : list Z) :
  length h = 8%nat -> length (Sha256.compress h block) = 8%nat.
Proof.
  intros Hlen. unfold Sha256.compress.
  rewrite length_map, length_combine, length_rounds by exact Hlen.
  rewrite Hlen. reflexivity.
Qed.

Lemma length_compress_all (bs : list (list Z)) (h : list Z) :
  length h = 8%nat -> length (fold_left Sha256.compress bs h) = 8%nat.
Proof.
  revert h. induction bs as [|b bs IH]; intros h Hlen; simpl; [exact Hlen|].
  apply IH. now apply length_compress.
Qed.

(** A digest is 32 bytes, whatever the message. *)
Lemma sha256_digest (msg : list Z) :
  length (Sha256.sha256 msg) = 32%nat /\ Forall is_byte (Sha256.sha256 msg).
Proof.
  unfold Sha256.sha256. split.
  - rewrite (flat_map_constant_length (c := 4%nat)).
    + rewrite length_compress_all by reflexivity. reflexivity.
    + intros x _. apply length_be_bytes.
  - apply Forall_flat_map. apply Forall_forall. intros x _. apply be_bytes_are_bytes.
Qed.

End Sha256Length.

Section Base64Shape.

Lemma lor_sextets (u v : Z) : 0 <= u < 64 -> 0 <= v < 64 -> 0 <= Z.lor u v < 64.
Proof.
  intros Hu Hv.
  assert (Hnonneg : 0 <= Z.lor u v) by (apply Z.lor_nonneg; lia).
  split; [exact Hnonneg|].
  destruct (Z.eq_dec (Z.lor u v) 0) as [->|Hne]; [lia|].
  change 64 with (2 ^ 6). apply Z.log2_lt_pow2; [lia|].
  rewrite Z.log2_lor by lia.
  assert (Hlog : forall w, 0 <= w < 64 -> Z.log2 w < 6).
  { intros w Hw. destruct (Z.eq_dec w 0) as [->|Hw0]; [reflexivity|].
    apply Z.log2_lt_pow2; [lia|]. change (2 ^ 6) with 64. lia. }
  apply Z.max_lub_lt; apply Hlog; assumption.
Qed.

Lemma high_six (a : Z) : is_byte a -> 0 <= Z.shiftr a 2 < 64.
Proof.
  unfold is_byte. intros Ha. rewrite Z.shiftr_div_pow2 by lia.
  change (2 ^ 2) with 4. split; [apply Z.div_pos; lia|].
  apply Z.div_lt_upper_bound; lia.
Qed.

Lemma low_two_up (a : Z) : 0 <= Z.shiftl (Z.land a 3) 4 < 64.
Proof.
  change 3 with (Z.ones 2). rewrite Z.land_ones by lia.
  rewrite Z.shiftl_mul_pow2 by lia. change (2 ^ 2) with 4. change (2 ^ 4) with 16.
  pose proof (Z.mod_pos_bound a 4 ltac:(lia)). lia.
Qed.

Lemma high_four (b : Z) : is_byte b -> 0 <= Z.shiftr b 4 < 64.
Proof.
  unfold is_byte. intros Hb. rewrite Z.shiftr_div_pow2 by lia.
  change (2 ^ 4) with 16. split; [apply Z.div_pos; lia|].
  apply Z.div_lt_upper_bound; lia.
Qed.

Lemma low_four_up (b : Z) : 0 <= Z.shiftl (Z.land b 15) 2 < 64.
Proof.
  change 15 with (Z.ones 4). rewrite Z.land_ones by lia.
  rewrite Z.shiftl_mul_pow2 by lia. change (2 ^ 2) with 4. change (2 ^ 4) with 16.
  pose proof (Z.mod_pos_bound b 16 ltac:(lia)). lia.
Qed.

Lemma high_two (c : Z) : is_byte c -> 0 <= Z.shiftr c 6 < 64.
Proof.
  unfold is_byte. intros Hc. rewrite Z.shiftr_div_pow2 by lia.
  change (2 ^ 6) with 64. split; [apply Z.div_pos; lia|].
  apply Z.div_lt_upper_bound; lia.
Qed.

Lemma low_six (c : Z) : 0 <= Z.land c 63 < 64.
Proof.
  change 63 with (Z.ones 6). rewrite Z.land_ones by lia.
  change (2 ^ 6) with 64. apply Z.mod_pos_bound. lia.
Qed.

(** The encoding of 3k+2 bytes: 4k+3 symbols of the alphabet and one pad. *)
Lemma b64encode_two_over (k : nat) (bs : list Z) :
  length bs = (3 * k + 2)%nat ->
  Forall is_byte bs ->
  exists symbols,
    Base64.b64encode bs = symbols ++ [Base64.pad]
    /\ length symbols = (4 * k + 3)%nat
    /\ Forall is_base64_symbol symbols.
Proof.
  revert bs. induction k as [|k IH]; intros bs Hlen Hbytes.
  - destruct bs as [|a [|b [|c bs]]]; simpl in Hlen; try lia.
    apply Forall_cons in Hbytes. destruct Hbytes as [Ha Hbytes].
    apply Forall_cons in Hbytes. destruct Hbytes as [Hb _].
    eexists [_; _; _]. split; [reflexivity|]. split; [reflexivity|].
    repeat constructor; eexists; (split; [|reflexivity]).
    + now apply high_six.
    + apply lor_sextets; [apply low_two_up | now apply high_four].
    + apply low_four_up.
  - destruct bs as [|a [|b [|c bs]]]; simpl in Hlen; try lia.
    apply Forall_cons in Hbytes. destruct Hbytes as [Ha Hbytes].
    apply Forall_cons in Hbytes. destruct Hbytes as [Hb Hbytes].
    apply Forall_cons in Hbytes. destruct Hbytes as [Hc Hbytes].
    destruct (IH bs ltac:(lia) Hbytes) as (symbols & Henc & Hlen' & Hsym).
    eexists (_ :: _ :: _ :: _ :: symbols).
    split; [cbn [Base64.b64encode]; rewrite Henc; reflexivity|].
    split; [simpl; lia|].
    repeat (apply Forall_cons; split); try exact Hsym; eexists; (split; [|reflexivity]).
    + now apply high_six.
    + apply lor_sextets; [apply low_two_up | now apply high_four].
    + apply lor_sextets; [apply low_four_up | now apply high_two].
    + apply low_six.
Qed.

Lemma get_in (s : string) (i : nat) :
  (i < String.length s)%nat ->
  exists ch, String.get i s = Some ch /\ In ch (list_ascii_of_string s).
Proof.
  revert i. induction s as [|x s IH]; intros i Hi; simpl in Hi; [lia|].
  destruct i as [|i]; simpl.
  - exists x. split; [reflexivity | now left].
  - destruct (IH i ltac:(lia)) as (ch & Hget & Hin).
    exists ch. split; [exact Hget | now right].
Qed.

(** A symbol is the byte of a character of the alphabet. *)
Lemma symbol_in_alphabet (b : Z) :
  is_base64_symbol b -> In (char_of b) (list_ascii_of_string Base64.alphabet).
Proof.
  intros (n & Hn & ->). unfold Base64.sextet.
  destruct (get_in Base64.alphabet (Z.to_nat n)) as (ch & Hget & Hin).
  { change (String.length Base64.alphabet) with 64%nat. lia. }
  rewrite Hget. unfold char_of, byte_of.
  rewrite N2Z.id, ascii_N_embedding. exact Hin.
Qed.

Lemma decode_app (l1 l2 : list Z) : decode (l1 ++ l2) = decode l1 +:+ decode l2.
Proof.
  unfold decode. induction l1 as [|x l1 IH]; [reflexivity|].
  simpl. change (String (char_of x) (string_of_list_ascii (map char_of (l1 ++ l2)))
                 = String (char_of x) (string_of_list_ascii (map char_of l1)
                                       +:+ string_of_list_ascii (map char_of l2))).
  now rewrite IH.
Qed.

Lemma length_decode (l : list Z) : String.length (decode l) = length l.
Proof.
  unfold decode. induction l as [|x l IH]; simpl; [reflexivity | now rewrite IH].
Qed.

End Base64Shape.

(** For every secret, the PKCE challenge that [_hash_pkce_secret] returns
    is 44 characters long: 43 characters of the standard base64 alphabet
    (A-Z, a-z, 0-9, + and /), followed by exactly one padding character
    [=]. *)
Theorem hash_pkce_secret_shape (secret : string) :
  exists body,
    Auth._hash_pkce_secret secret = body +:+ "="
    /\ String.length body = 43%nat
    /\ String.length (Auth._hash_pkce_secret secret) = 44%nat
    /\ Forall (fun ch => In ch (list_ascii_of_string Base64.alphabet))
         (list_ascii_of_string body).
Proof.
  unfold Auth._hash_pkce_secret.
  destruct (sha256_digest (encode secret)) as [Hlen Hbytes].
  destruct (b64encode_two_over 10 (Sha256.sha256 (encode secret)) Hlen Hbytes)
    as (symbols & Henc & Hlen' & Hsym).
  exists (decode symbols). cbv zeta. rewrite Henc, decode_app.
  split; [reflexivity|]. split; [rewrite length_decode; exact Hlen'|].
  split.
  - change (decode [Base64.pad]) with "=".
    rewrite length_append, length_decode, Hlen'. reflexivity.
  - unfold decode. rewrite list_ascii_of_string_of_list_ascii.
    apply Forall_map. eapply Forall_impl; [exact Hsym|].
    intros b Hb. now apply symbol_in_alphabet.
Qed.

(** ** The challenge inside the URL *)

Section ChallengeInUrl.

Lemma quote_plus_app (a b : string) :
  Urllib.quote_plus (a +:+ b) = Urllib.quote_plus a +:+ Urllib.quote_plus b.
Proof.
  induction a as [|x a IH]; [reflexivity|].
  change (Urllib.quote_plus (String x (a +:+ b))
          = Urllib.quote_plus (String x a) +:+ Urllib.quote_plus b).
  cbn [Urllib.quote_plus]. rewrite IH. now rewrite append_assoc.
Qed.

End ChallengeInUrl.

(** In the URL of [url_for_oauth2_pkce] the challenge is percent-encoded:
    the query string has the piece [code_challenge=] followed by the
    encoding of the 43 symbols of the hashed secret and by [%3D], the
    encoding of its padding character. *)
Theorem pkce_challenge_in_url {E : Env} (self : Resource) (cl : HttpClientObj)
    (config : loc) (c : dict) (a : pyval) (ss : list string) (st : state) :
  clients st !! _http_client self = Some cl ->
  dicts st !! config = Some c ->
  Dict.get "access_type" c = Some a ->
  Dict.get "scopes" c = Some (VList (map VStr ss)) ->
  exists p body pieces,
    fst (Auth.url_for_oauth2_pkce self config st) = Ok p
    /\ secret_hash p = body +:+ "="
    /\ String.length body = 43%nat
    /\ url p = api_server cl +:+ "/v3/connect/auth?" +:+ join "&" pieces
    /\ In ("code_challenge=" +:+ Urllib.quote_plus body +:+ "%3D") pieces.
Proof.
  intros Hc Hl Ha Hs.
  destruct (query_step_ok c a ss Ha Hs) as (q0 & Hstep & _).
  rewrite (url_for_oauth2_pkce_run self cl config c st Hc Hl).
  rewrite Hstep. cbv zeta. simpl fst. simpl snd.
  destruct (sha256_digest (encode (uuid4 (uuids st)))) as [Hlen Hbytes].
  destruct (b64encode_two_over 10 _ Hlen Hbytes) as (symbols & Henc & Hlen' & _).
  assert (Hhash : Auth._hash_pkce_secret (uuid4 (uuids st)) = decode symbols +:+ "=").
  { unfold Auth._hash_pkce_secret. cbv zeta. rewrite Henc, decode_app. reflexivity. }
  set (h := Auth._hash_pkce_secret (uuid4 (uuids st))) in *.
  set (q := Dict.set "code_challenge_method" (VStr "s256")
              (Dict.set "code_challenge" (VStr h) q0)).
  assert (Hcc : Dict.get "code_challenge" q = Some (VStr h)).
  { unfold q. rewrite get_set_ne by discriminate. apply get_set_eq. }
  destruct (urlencode_item "code_challenge" (VStr h) q Hcc) as (pieces & Hpieces & Hin).
  eexists. exists (decode symbols), pieces.
  split; [reflexivity|]. split; [exact Hhash|].
  split; [rewrite length_decode; exact Hlen'|].
  split; [simpl; now rewrite Hpieces|].
  simpl in Hin. rewrite Hhash, quote_plus_app in Hin. exact Hin.
Qed.

Lemma pkce_challenge_in_url_witness :
  exists p body pieces,
    fst (Auth.url_for_oauth2_pkce (E := example_env) (mkResource 0%nat) 0%nat example_state)
    = Ok p
    /\ secret_hash p = body +:+ "="
    /\ url p = "https://api.nylas.com/v3/connect/auth?" +:+ join "&" pieces
    /\ In ("code_challenge=" +:+ Urllib.quote_plus body +:+ "%3D") pieces.
Proof.
  destruct (pkce_challenge_in_url (E := example_env) (mkResource 0%nat) example_client
              0%nat example_config VNone ["calendar"; "email"] example_state
              eq_refl eq_refl eq_refl eq_refl)
    as (p & body & pieces & Hrun & Hhash & _ & Hurl & Hin).
  exists p, body, pieces.
  split; [exact Hrun|]. split; [exact Hhash|]. split; [exact Hurl | exact Hin].
Defined.


(** ** Which exceptions the URL builders raise *)

Section Joinable.


Lemma expect_strs_not_all_str (l : list pyval) :
  all_str l = false -> exists msg, expect_strs l = Raise (TypeError msg).
Proof.
  induction l as [|v l IH]; simpl; [discriminate|].
  destruct v; try (intros _; eexists; reflexivity).
  intros Hall. destruct (IH Hall) as (msg & ->). eexists; reflexivity.
Qed.


(** Any other value is truthy, and [str.join] refuses it. *)
Lemma str_join_not_joinable (s : pyval) :
  joinable s = false ->
  truthy s = true /\ exists msg, str_join " " s = Raise (TypeError msg).
Proof.
  unfold str_join. destruct s as [|b|z|j|l|d]; simpl; intros Hj; try discriminate.
  - destruct b; [|discriminate]. split; [reflexivity | eexists; reflexivity].
  - rewrite Hj. split; [reflexivity | eexists; reflexivity].
  - destruct (expect_strs_not_all_str l Hj) as (msg & ->).
    split; [|eexists; reflexivity]. destruct l; [discriminate | reflexivity].
Qed.


(** With both keys there and any other 'scopes', TypeError. *)
Lemma query_step_not_joinable (c : dict) (a s : pyval) :
  Dict.get "access_type" c = Some a ->
  Dict.get "scopes" c = Some s ->
  joinable s = false ->
  exists msg, fst (query_step c) = Raise (TypeError msg).
Proof.
  intros Ha Hs Hj.
  destruct (query_step_cases c a s Ha Hs) as (c2 & _ & _ & _ & _ & Hstep).
  destruct (str_join_not_joinable s Hj) as (Ht & msg & Hjoin).
  rewrite Ht, Hjoin in Hstep. exists msg. now rewrite Hstep.
Qed.

End Joinable.



